(** * Uptime monitor worker: check execution and incident lifecycle

    A shallow embedding of [src/index.ts] (the health prober, the message
    renderer and the BullMQ job processor) and of [src/notification.ts]
    (the notification dispatcher), over the tables of [src/db/schema.ts].

    Conventions of the embedding.
    - JavaScript numbers that hold integers (HTTP status codes, epoch
      milliseconds, durations) are [Z]; strings are [string].
    - Everything the code obtains from outside (the wall clock, the HTTP
      transport, the mail transport, whether a persistence call rejects) is
      read from an [Oracle], indexed by the number of effects performed so
      far ([tick]).  Nothing is assumed about the oracle unless a theorem
      says so (the order of a scan is a permutation of the selected rows).
    - Asynchronous code is a state-and-exception monad [M] over the [World]:
      a rejected promise is [Throw], and the world changes made before a
      throw are kept, as in the source.
    - The store is a set of tables, each a list of rows.  Of the column
      constraints of the SQL schema the embedding keeps those the worker's
      statements can violate: the generated primary keys, the [NOT NULL]
      column [check_result.user_id], which has no default, and the 32-bit
      range of the [integer] columns [response_ms] and [duration_ms].  The
      query for the open incidents of a monitor has no [ORDER BY] and may
      select several rows: they come in an order chosen by the store (the
      oracle's [scanOrder], some permutation of the selected rows). *)

From Stdlib Require Import ZArith List String Ascii Bool Arith Lia DecimalString
  Permutation.
Import ListNotations.
Open Scope string_scope.

(** ** JavaScript values *)

Module Js.

Definition nl : string := String (ascii_of_nat 10) EmptyString.

(** [String(n)] / template interpolation of an integer number. *)
Definition numberToString (z : Z) : string :=
  NilZero.string_of_int (Z.to_int z).

(** Truthiness of a string and of a number. *)
Definition truthyString (s : string) : bool := negb (s =? "").
Definition truthyNumber (z : Z) : bool := negb (z =? 0)%Z.

(** [a || b] on strings. *)
Definition orString (a b : string) : string :=
  if truthyString a then a else b.

(** [a || b] where [a] may be [undefined]. *)
Definition orUndefString (a : option string) (b : string) : string :=
  match a with
  | Some s => orString s b
  | None => b
  end.

(** [s.includes(t)], as a proposition. *)
Definition includes (s t : string) : Prop :=
  exists pre post, s = pre ++ t ++ post.

End Js.

(** ** The HTTP client (axios), as far as the code relies on it *)

Record AxiosResponse := {
  resp_status : Z;
  resp_statusText : string
}.

(** Values that can be thrown.  [AxiosError] is a subclass of [Error]. *)
Inductive JsError :=
| AxiosError (code : option string) (response : option AxiosResponse) (message : string)
| Error (message : string)
| NotAnError.

Inductive Result (A : Type) :=
| Ok (a : A)
| Throw (e : JsError).
Arguments Ok {A} a.
Arguments Throw {A} e.

(** What the network does with one request, before axios looks at the
    status code. *)
Inductive Transport :=
| Responded (r : AxiosResponse)
| Failed (e : JsError).

(** axios settles a received response with [validateStatus]: the promise
    resolves when it accepts the status and rejects with an [AxiosError]
    carrying the response otherwise. *)
Definition settle (validateStatus : Z -> bool) (t : Transport) : Result AxiosResponse :=
  match t with
  | Responded r =>
      if validateStatus (resp_status r) then Ok r
      else Throw (AxiosError
                    (Some (if (resp_status r <? 500)%Z then "ERR_BAD_REQUEST" else "ERR_BAD_RESPONSE"))
                    (Some r)
                    ("Request failed with status code " ++ Js.numberToString (resp_status r)))
  | Failed e => Throw e
  end.

(** ** Tables of the store ([src/db/schema.ts]) *)

Definition uuid := nat.

Inductive MonitorStatus := Up | Down | Paused | UnknownStatus.
Inductive IncidentStatus := Open | Resolved.

Record MonitorRow := {
  mon_id : uuid;
  mon_name : string;
  mon_url : string;
  mon_status : MonitorStatus;
  mon_method : string;
  mon_headers : list (string * string);
  mon_expectedStatus : Z;
  mon_userId : string
}.

Record CheckResultRow := {
  cr_id : uuid;
  cr_userId : string;
  cr_monitorId : uuid;
  cr_status : MonitorStatus;
  cr_responseMs : Z;
  cr_createdAt : Z
}.

Record IncidentRow := {
  inc_id : uuid;
  inc_monitorId : uuid;
  inc_userId : string;
  inc_status : IncidentStatus;
  inc_startAt : Z;
  inc_endAt : option Z;
  inc_durationMs : option Z;
  inc_errorMessage : option string
}.

Record ChannelRow := {
  ch_id : uuid;
  ch_userId : string;
  ch_type : string;
  ch_value : string
}.

(** ** Types of [src/index.ts] and [src/notification.ts] *)

Inductive ErrorType := Timeout | Network | Status | Unknown.

Record MonitorCheck := {
  monitorId : uuid;
  url : string;
  method : string;
  expectedStatus : Z;
  headers : option (list (string * string));
  userId : string;
  name : option string
}.

Record CheckResults := {
  isUp : bool;
  responseMs : Z;
  statusCode : option Z;
  errorMessage : option string;
  errorType : ErrorType
}.

Inductive Priority := low | medium | high | critical.

Record Metadata := {
  md_monitorId : uuid;
  md_incidentId : option uuid;
  md_url : string;
  md_errorType : option ErrorType;
  md_downtimeDuration : option Z
}.

Record NotificationPayload := {
  np_userId : string;
  np_title : string;
  np_message : string;
  np_priority : option Priority;
  np_metadata : option Metadata
}.

Record NotificationResult := {
  channelId : uuid;
  type : string;
  success : bool;
  error : option string
}.

Record Notification := {
  title : string;
  message : string;
  priority : Priority
}.

(** The JSON body posted by [sendWebhook], one shape per channel type. *)
Inductive WebhookBody :=
| SlackBody (text color fieldTitle fieldValue : string) (short : bool)
            (footer : string) (ts : Z)
| DiscordBody (embedTitle description : string) (color : Z)
              (timestamp footerText : string)
| AlertBody (alertTitle alertMessage : string) (alertPriority : Priority)
            (timestamp alertType : string).

(** The mail handed to [transporter.sendMail]; its [html] part wraps the
    same title and message in fixed markup and is left out. *)
Record MailMessage := {
  mail_from : string;
  mail_to : string;
  mail_subject : string;
  mail_text : string
}.

(** ** What the store enforces ([src/db/schema.ts]) *)

Module Pg.

Definition quote : string := String (ascii_of_nat 34) EmptyString.

(** A column declared [.notNull()] without a default received no value. *)
Definition notNullViolation (column relation : string) : JsError :=
  Error ("null value in column " ++ quote ++ column ++ quote ++ " of relation "
         ++ quote ++ relation ++ quote ++ " violates not-null constraint").

(** [t.integer(...)] is a 32-bit signed column. *)
Definition fitsInteger (z : Z) : bool :=
  ((-2147483648 <=? z) && (z <=? 2147483647))%Z.

Definition integerOutOfRange (z : Z) : JsError :=
  Error ("value " ++ quote ++ Js.numberToString z ++ quote
         ++ " is out of range for type integer").

End Pg.

(** The object passed to [db.insert(checkResult).values(...)]: a property
    that is left out is [None].  [userId] is the only column of the table
    that has neither a value in the worker's object nor a default. *)
Record CheckResultValues := {
  v_userId : option string;
  v_monitorId : uuid;
  v_status : MonitorStatus;
  v_responseMs : Z;
  v_createdAt : Z
}.

(** ** The world and the oracle *)

Record World := {
  monitors : list MonitorRow;
  checkResults : list CheckResultRow;
  incidents : list IncidentRow;
  channels : list ChannelRow;
  (** number of effects performed so far *)
  tick : nat;
  (** trace of the invocations of [NotificationService.notifyUser] *)
  notifyCalls : list NotificationPayload
}.

Record Oracle := {
  (** [Date.now()] read as effect number [k] *)
  now : nat -> Z;
  (** [new Date(t).toLocaleString()] and [.toISOString()] *)
  toLocaleString : Z -> string;
  toISOString : Z -> string;
  (** the persistence call made as effect number [k] rejects with this *)
  dbFails : nat -> option JsError;
  (** the order in which the query made as effect number [k] returns the
      rows it selects: the queries of the worker have no [ORDER BY] *)
  scanOrder : nat -> list IncidentRow -> list IncidentRow;
  scanOrder_perm : forall k rows, Permutation (scanOrder k rows) rows;
  (** the transport's answer to the probe made as effect number [k] *)
  probe : nat -> Transport;
  (** delivery to the channel at position [i] of the fan-out made as effect
      number [k]: the clock it reads, the webhook transport's answer to the
      posted body, and the error [transporter.sendMail] rejects with *)
  deliveryClock : nat -> nat -> Z;
  post : nat -> nat -> string -> WebhookBody -> Transport;
  sendMail : nat -> nat -> MailMessage -> option JsError;
  (** [createTransporter()] returned a transporter; [process.env.SMTP_FROM] *)
  transporter : bool;
  SMTP_FROM : option string
}.

Definition set_tick (n : nat) (w : World) : World :=
  {| monitors := monitors w; checkResults := checkResults w;
     incidents := incidents w; channels := channels w;
     tick := n; notifyCalls := notifyCalls w |}.

Definition set_monitors (l : list MonitorRow) (w : World) : World :=
  {| monitors := l; checkResults := checkResults w;
     incidents := incidents w; channels := channels w;
     tick := tick w; notifyCalls := notifyCalls w |}.

Definition set_checkResults (l : list CheckResultRow) (w : World) : World :=
  {| monitors := monitors w; checkResults := l;
     incidents := incidents w; channels := channels w;
     tick := tick w; notifyCalls := notifyCalls w |}.

Definition set_incidents (l : list IncidentRow) (w : World) : World :=
  {| monitors := monitors w; checkResults := checkResults w;
     incidents := l; channels := channels w;
     tick := tick w; notifyCalls := notifyCalls w |}.

Definition set_notifyCalls (l : list NotificationPayload) (w : World) : World :=
  {| monitors := monitors w; checkResults := checkResults w;
     incidents := incidents w; channels := channels w;
     tick := tick w; notifyCalls := l |}.

(** ** The monad of asynchronous code *)

Definition M (A : Type) : Type := World -> Result A * World.

Definition ret {A} (a : A) : M A := fun w => (Ok a, w).

Definition bind {A B} (c : M A) (k : A -> M B) : M B :=
  fun w =>
    match c w with
    | (Ok a, w') => k a w'
    | (Throw e, w') => (Throw e, w')
    end.

Definition throw {A} (e : JsError) : M A := fun w => (Throw e, w).

(** [try { body } catch (error) { handler }] *)
Definition try_catch {A} (body : M A) (handler : JsError -> M A) : M A :=
  fun w =>
    match body w with
    | (Ok a, w') => (Ok a, w')
    | (Throw e, w') => handler e w'
    end.

(** Lifting an already settled promise. *)
Definition settled {A} (r : Result A) : M A := fun w => (r, w).

Declare Scope js_scope.
Delimit Scope js_scope with js.
Notation "x <- c ;; k" := (bind c (fun x => k))
  (at level 61, c at next level, right associativity) : js_scope.
Notation "c ;;; k" := (bind c (fun _ => k))
  (at level 61, right associativity) : js_scope.
Open Scope js_scope.

Section Program.

Context (o : Oracle).

(** One effect: returns the number of the effect and advances [tick]. *)
Definition effect : M nat :=
  fun w => (Ok (tick w), set_tick (S (tick w)) w).

Definition dateNow : M Z :=
  k <- effect ;; ret (now o k).

(** A call of the persistence gateway: rejects when the oracle says so,
    runs [f] on the tables otherwise. *)
Definition dbCall {A} (f : World -> A * World) : M A :=
  k <- effect ;;
  match dbFails o k with
  | Some e => throw e
  | None => fun w => let (a, w') := f w in (Ok a, w')
  end.

(** A call of the persistence gateway whose statement the store checks
    against the schema: [f] receives the number of the effect and either
    changes the tables or rejects. *)
Definition dbExec {A} (f : nat -> World -> Result A * World) : M A :=
  k <- effect ;;
  match dbFails o k with
  | Some e => throw e
  | None => f k
  end.

(** [axios.request({..., validateStatus: () => true, ...})] *)
Definition axiosRequest (monitor : MonitorCheck) : M AxiosResponse :=
  k <- effect ;; settled (settle (fun _ => true) (probe o k)).

(** *** [performHealthCheck] *)

Definition performHealthCheck (monitor : MonitorCheck) : M CheckResults :=
  start <- dateNow ;;
  try_catch
    (response <- axiosRequest monitor ;;
     t <- dateNow ;;
     let responseMs := (t - start)%Z in
     let statusCode := Some (resp_status response) in
     let isUp := (resp_status response =? expectedStatus monitor)%Z in
     if negb isUp then
       ret {| isUp := isUp; responseMs := responseMs; statusCode := statusCode;
              errorMessage :=
                Some ("Expected " ++ Js.numberToString (expectedStatus monitor)
                      ++ ", got " ++ Js.numberToString (resp_status response));
              errorType := Status |}
     else
       ret {| isUp := isUp; responseMs := responseMs; statusCode := statusCode;
              errorMessage := None; errorType := Unknown |})
    (fun error =>
       t <- dateNow ;;
       let responseMs := (t - start)%Z in
       match error with
       | AxiosError code response message =>
           if match code with
              | Some c => (c =? "ECONNABORTED") || (c =? "ETIMEDOUT")
              | None => false
              end
           then
             ret {| isUp := false; responseMs := responseMs; statusCode := None;
                    errorMessage :=
                      Some ("Request timeout after " ++ Js.numberToString responseMs ++ "ms");
                    errorType := Timeout |}
           else if match code with
                   | Some c => (c =? "ECONNREFUSED") || (c =? "ENOTFOUND")
                   | None => false
                   end
           then
             ret {| isUp := false; responseMs := responseMs; statusCode := None;
                    errorMessage :=
                      Some ("Network error: " ++ match code with Some c => c | None => "" end);
                    errorType := Network |}
           else
             match response with
             | Some r =>
                 if Js.truthyNumber (resp_status r) then
                   ret {| isUp := false; responseMs := responseMs;
                          statusCode := Some (resp_status r);
                          errorMessage :=
                            Some ("HTTP " ++ Js.numberToString (resp_status r)
                                  ++ ": " ++ resp_statusText r);
                          errorType := Status |}
                 else
                   ret {| isUp := false; responseMs := responseMs; statusCode := None;
                          errorMessage := Some (Js.orString message "Unknown axios error");
                          errorType := Unknown |}
             | None =>
                 ret {| isUp := false; responseMs := responseMs; statusCode := None;
                        errorMessage := Some (Js.orString message "Unknown axios error");
                        errorType := Unknown |}
             end
       | Error message =>
           ret {| isUp := false; responseMs := responseMs; statusCode := None;
                  errorMessage := Some message; errorType := Unknown |}
       | NotAnError =>
           ret {| isUp := false; responseMs := responseMs; statusCode := None;
                  errorMessage := Some "Unknown error occurred"; errorType := Unknown |}
       end).

(** *** [getTroubleshootingTips] and [generateNotificationMessages] *)

Definition getTroubleshootingTips (errorType : ErrorType) : string :=
  match errorType with
  | Timeout =>
      "💡 Troubleshooting tips:" ++ Js.nl ++
      "• Check if your server is overloaded" ++ Js.nl ++
      "• Verify network connectivity" ++ Js.nl ++
      "• Consider increasing timeout if legitimate slow response"
  | Network =>
      "💡 Troubleshooting tips:" ++ Js.nl ++
      "• Verify the URL is correct and accessible" ++ Js.nl ++
      "• Check DNS resolution" ++ Js.nl ++
      "• Ensure firewall/security groups allow connections"
  | Status =>
      "💡 Troubleshooting tips:" ++ Js.nl ++
      "• Check server logs for errors" ++ Js.nl ++
      "• Verify the service is running properly" ++ Js.nl ++
      "• Review recent deployments or changes"
  | Unknown =>
      "💡 We recommend checking your server logs and service status."
  end.

(** [results.statusCode || fallback], interpolated. *)
Definition statusCodeOr (statusCode : option Z) (fallback : string) : string :=
  match statusCode with
  | Some c => if Js.truthyNumber c then Js.numberToString c else fallback
  | None => fallback
  end.

Definition generateNotificationMessages
    (monitor : MonitorCheck) (results : CheckResults)
    (isNewIncident isResolved : bool) : M Notification :=
  let serviceName := Js.orUndefString (name monitor) (url monitor) in
  if isResolved then
    t <- dateNow ;;
    ret {| title := "✅ Service Restored: " ++ serviceName;
           message :=
             "Good news! Your monitored service is back online." ++ Js.nl ++
             Js.nl ++
             "🔗 Service: " ++ serviceName ++ Js.nl ++
             "⏱️ Response Time: " ++ Js.numberToString (responseMs results) ++ "ms" ++ Js.nl ++
             "📊 Status: " ++ statusCodeOr (statusCode results) "N/A" ++ Js.nl ++
             "🕒 Resolved at: " ++ toLocaleString o t ++ Js.nl ++
             Js.nl ++
             "Your service is now responding normally.";
           priority := medium |}
  else if isNewIncident then
    let errorDetails := Js.orUndefString (errorMessage results) "Unknown error" in
    let troubleshootingTips := getTroubleshootingTips (errorType results) in
    t <- dateNow ;;
    ret {| title := "🚨 Service Down: " ++ serviceName;
           message :=
             "Your monitored service is currently experiencing issues." ++ Js.nl ++
             Js.nl ++
             "🔗 Service: " ++ serviceName ++ Js.nl ++
             "❌ Status: " ++ errorDetails ++ Js.nl ++
             "⏱️ Response Time: " ++ Js.numberToString (responseMs results) ++ "ms" ++ Js.nl ++
             "🕒 Started at: " ++ toLocaleString o t ++ Js.nl ++
             Js.nl ++
             troubleshootingTips ++ Js.nl ++
             Js.nl ++
             "We'll continue monitoring and notify you when the service is restored.";
           priority := critical |}
  else
    t <- dateNow ;;
    ret {| title := "⚠️ Service Still Down: " ++ serviceName;
           message :=
             "Your service continues to experience issues." ++ Js.nl ++
             Js.nl ++
             "🔗 Service: " ++ serviceName ++ Js.nl ++
             "❌ Current Status: " ++ Js.orUndefString (errorMessage results) "Unknown error" ++ Js.nl ++
             "⏱️ Latest Check: " ++ Js.numberToString (responseMs results) ++ "ms" ++ Js.nl ++
             "🕒 Last Checked: " ++ toLocaleString o t ++ Js.nl ++
             Js.nl ++
             "We're still monitoring the situation.";
           priority := high |}.

(** *** The persistence gateway (drizzle queries of the two files) *)

(** [defaultRandom()] primary keys: a key not yet in the table. *)
Definition freshId (ids : list uuid) : uuid := S (list_max ids).

(** [db.select().from(monitor).where(eq(monitor.id, monitorId))] *)
Definition selectMonitor (monitorId : uuid) : M (list MonitorRow) :=
  dbCall (fun w => (filter (fun m => mon_id m =? monitorId)%nat (monitors w), w)).

Definition setMonitorStatus (s : MonitorStatus) (m : MonitorRow) : MonitorRow :=
  {| mon_id := mon_id m; mon_name := mon_name m; mon_url := mon_url m;
     mon_status := s; mon_method := mon_method m; mon_headers := mon_headers m;
     mon_expectedStatus := mon_expectedStatus m; mon_userId := mon_userId m |}.

(** [db.update(monitor).set({status}).where(eq(monitor.id, monitorId))] *)
Definition updateMonitorStatus (monitorId : uuid) (s : MonitorStatus) : M unit :=
  dbCall (fun w =>
    (tt, set_monitors
           (map (fun m => if (mon_id m =? monitorId)%nat then setMonitorStatus s m else m)
                (monitors w)) w)).

(** [db.insert(checkResult).values(values)]: the store rejects a
    [response_ms] outside the 32-bit range and a row without [user_id]
    ([schema.ts]: [userId: text("user_id").notNull()], no default). *)
Definition insertCheckResult (values : CheckResultValues) : M unit :=
  dbExec (fun _ w =>
    if Pg.fitsInteger (v_responseMs values) then
      match v_userId values with
      | Some userId =>
          (Ok tt,
           set_checkResults
             (checkResults w ++
              [{| cr_id := freshId (map cr_id (checkResults w));
                  cr_userId := userId;
                  cr_monitorId := v_monitorId values; cr_status := v_status values;
                  cr_responseMs := v_responseMs values;
                  cr_createdAt := v_createdAt values |}]) w)
      | None => (Throw (Pg.notNullViolation "user_id" "check_result"), w)
      end
    else (Throw (Pg.integerOutOfRange (v_responseMs values)), w)).

Definition isNull {A} (x : option A) : bool :=
  match x with None => true | Some _ => false end.

(** [db.select().from(incident).where(and(eq(incident.monitorId, monitorId),
    isNull(incident.endAt)))]: the selected rows, in the order the store
    returns them. *)
Definition selectOpenIncidents (monitorId : uuid) : M (list IncidentRow) :=
  dbExec (fun k w =>
    (Ok (scanOrder o k
           (filter (fun i => (inc_monitorId i =? monitorId)%nat && isNull (inc_endAt i))
                   (incidents w))), w)).

(** [db.update(incident).set(fields).where(eq(incident.id, id))], where
    [fields] gives [durationMs]: the value is bound as a 32-bit parameter,
    so the store rejects a [duration_ms] outside that range whether or not
    a row matches. *)
Definition updateIncident (id : uuid) (durationMs : Z)
    (set : IncidentRow -> IncidentRow) : M unit :=
  dbExec (fun _ w =>
    if Pg.fitsInteger durationMs then
      (Ok tt,
       set_incidents
         (map (fun i => if (inc_id i =? id)%nat then set i else i) (incidents w)) w)
    else (Throw (Pg.integerOutOfRange durationMs), w)).

(** [.set({durationMs, errorMessage})] *)
Definition setOngoing (durationMs : Z) (errorMessage : string) (i : IncidentRow) : IncidentRow :=
  {| inc_id := inc_id i; inc_monitorId := inc_monitorId i; inc_userId := inc_userId i;
     inc_status := inc_status i; inc_startAt := inc_startAt i; inc_endAt := inc_endAt i;
     inc_durationMs := Some durationMs; inc_errorMessage := Some errorMessage |}.

(** [.set({endAt, durationMs})] *)
Definition setEnded (endAt durationMs : Z) (i : IncidentRow) : IncidentRow :=
  {| inc_id := inc_id i; inc_monitorId := inc_monitorId i; inc_userId := inc_userId i;
     inc_status := inc_status i; inc_startAt := inc_startAt i; inc_endAt := Some endAt;
     inc_durationMs := Some durationMs; inc_errorMessage := inc_errorMessage i |}.

(** [db.insert(incident).values({userId, monitorId, status, startAt, endAt,
    durationMs, errorMessage}).returning()] *)
Definition insertIncident (userId : string) (monitorId : uuid) (s : IncidentStatus)
    (startAt : Z) (endAt : option Z) (durationMs : Z) (errorMessage : string)
    : M (list IncidentRow) :=
  dbExec (fun _ w =>
    let row := {| inc_id := freshId (map inc_id (incidents w));
                  inc_monitorId := monitorId; inc_userId := userId; inc_status := s;
                  inc_startAt := startAt; inc_endAt := endAt;
                  inc_durationMs := Some durationMs;
                  inc_errorMessage := Some errorMessage |} in
    if Pg.fitsInteger durationMs then
      (Ok [row], set_incidents (incidents w ++ [row]) w)
    else (Throw (Pg.integerOutOfRange durationMs), w)).

(** [db.select().from(notificationChannel).where(eq(notificationChannel.userId, userId))] *)
Definition selectChannels (userId : string) : M (list ChannelRow) :=
  dbCall (fun w => (filter (fun c => ch_userId c =? userId) (channels w), w)).

(** *** [NotificationService] ([src/notification.ts]) *)

Definition priorityEmoji (priority : Priority) : string :=
  match priority with
  | low => "📢"
  | medium => "⚠️"
  | high => "🚨"
  | critical => "🔴"
  end.

(** [sendEmail], as delivery [i] of fan-out [k]. *)
Definition sendEmail (k i : nat) (to title message : string) (priority : Priority)
    : Result unit :=
  if negb (transporter o) then Throw (Error "Email transporter not available")
  else
    match SMTP_FROM o with
    | None => Throw (Error "SMTP_FROM environment variable not set")
    | Some from =>
        if negb (Js.truthyString from)
        then Throw (Error "SMTP_FROM environment variable not set")
        else
          match sendMail o k i
                  {| mail_from := from; mail_to := to;
                     mail_subject := priorityEmoji priority ++ " " ++ title;
                     mail_text := message |} with
          | Some e => Throw e
          | None => Ok tt
          end
    end.

Definition webhookBody (k i : nat) (title message type : string) (priority : Priority)
    : WebhookBody :=
  if type =? "slack" then
    SlackBody ("*" ++ title ++ "*" ++ Js.nl ++ message)
              (match priority with
               | critical => "danger"
               | high => "warning"
               | _ => "good"
               end)
              title message false "Monitor Alert"
              (deliveryClock o k i / 1000)%Z
  else if type =? "discord" then
    DiscordBody title message
                (match priority with
                 | low => 0x36a64f
                 | medium => 0xffcc00
                 | high => 0xff9900
                 | critical => 0xff0000
                 end)%Z
                (toISOString o (deliveryClock o k i)) "Monitor Alert"
  else
    AlertBody title message priority
              (toISOString o (deliveryClock o k i)) "monitor_alert".

(** [sendWebhook], as delivery [i] of fan-out [k]:
    [axios.post(url, payload, {..., validateStatus: (status) => status < 500})]. *)
Definition sendWebhook (k i : nat) (url title message type : string) (priority : Priority)
    : Result unit :=
  match settle (fun status => (status <? 500)%Z)
               (post o k i url (webhookBody k i title message type priority)) with
  | Ok _ => Ok tt
  | Throw e => Throw e
  end.

(** [error instanceof Error ? error.message : 'Unknown error'] *)
Definition errorText (e : JsError) : string :=
  match e with
  | AxiosError _ _ m => m
  | Error m => m
  | NotAnError => "Unknown error"
  end.

(** The async callback of [channels.map] in [notifyUser]: the promise of
    the channel at position [i]. *)
Definition deliver (k : nat) (title message : string) (priority : Priority)
    (i : nat) (channel : ChannelRow) : Result NotificationResult :=
  let sent :=
    if ch_type channel =? "email" then
      sendEmail k i (ch_value channel) title message priority
    else if (ch_type channel =? "slack") || (ch_type channel =? "discord")
            || (ch_type channel =? "webhook") then
      sendWebhook k i (ch_value channel) title message (ch_type channel) priority
    else Throw (Error ("Unsupported channel type: " ++ ch_type channel)) in
  match sent with
  | Ok _ =>
      Ok {| channelId := ch_id channel; type := ch_type channel;
            success := true; error := None |}
  | Throw e =>
      Ok {| channelId := ch_id channel; type := ch_type channel;
            success := false; error := Some (errorText e) |}
  end.

(** [xs.map((x, index) => f(index, x))], from position [i]. *)
Fixpoint mapIndexed {A B} (f : nat -> A -> B) (i : nat) (xs : list A) : list B :=
  match xs with
  | [] => []
  | x :: xs' => f i x :: mapIndexed f (S i) xs'
  end.

(** [result.reason?.message || 'Promise rejected'] *)
Definition reasonText (e : JsError) : string :=
  match e with
  | AxiosError _ _ m => Js.orString m "Promise rejected"
  | Error m => Js.orString m "Promise rejected"
  | NotAnError => "Promise rejected"
  end.

(** [settlementResults.forEach((result, index) => results.push(...))];
    reading [channels[index]!.id] of a missing channel is a [TypeError]. *)
Fixpoint forEachSettled (channels : list ChannelRow)
    (settlementResults : list (Result NotificationResult)) (index : nat)
    (results : list NotificationResult) : Result (list NotificationResult) :=
  match settlementResults with
  | [] => Ok results
  | Ok value :: rest => forEachSettled channels rest (S index) (results ++ [value])
  | Throw reason :: rest =>
      match nth_error channels index with
      | Some channel =>
          forEachSettled channels rest (S index)
            (results ++ [{| channelId := ch_id channel; type := ch_type channel;
                            success := false; error := Some (reasonText reason) |}])
      | None => Throw (Error "Cannot read properties of undefined (reading 'id')")
      end
  end.

Definition notifyUser (payload : NotificationPayload) : M (list NotificationResult) :=
  fun w0 =>
  (let userId := np_userId payload in
   let title := np_title payload in
   let message := np_message payload in
   let priority := match np_priority payload with Some p => p | None => medium end in
   if negb (Js.truthyString userId) || negb (Js.truthyString title)
      || negb (Js.truthyString message)
   then throw (Error "Missing required notification parameters")
   else
     try_catch
       (channels <- selectChannels userId ;;
        if (List.length channels =? 0)%nat then ret []
        else
          k <- effect ;;
          let promises := mapIndexed (deliver k title message priority) 0 channels in
          settled (forEachSettled channels promises 0 []))
       (fun error => throw error))
    (set_notifyCalls (notifyCalls w0 ++ [payload]) w0).

(** *** The job processor of the [monitor-checks] worker *)

Definition monitorCheckOf (m : MonitorRow) (withHeaders : bool) : MonitorCheck :=
  {| monitorId := mon_id m; url := mon_url m; method := mon_method m;
     expectedStatus := mon_expectedStatus m;
     headers := if withHeaders then Some (mon_headers m) else None;
     userId := mon_userId m; name := Some (mon_name m) |}.

Definition statusOf (results : CheckResults) : MonitorStatus :=
  if isUp results then Up else Down.

(** [results.errorMessage || `HTTP ${results.statusCode || 'Unknown'}`] *)
Definition incidentErrorMessage (results : CheckResults) : string :=
  Js.orUndefString (errorMessage results)
                   ("HTTP " ++ statusCodeOr (statusCode results) "Unknown").

Definition worker (monitorId : uuid) : M unit :=
  try_catch
    (rows <- selectMonitor monitorId ;;
     match rows with
     | [] => ret tt
     | existingMonitor :: _ =>
         results <- performHealthCheck (monitorCheckOf existingMonitor true) ;;
         updateMonitorStatus monitorId (statusOf results) ;;;
         createdAt <- dateNow ;;
         insertCheckResult {| v_userId := None;
                              v_monitorId := monitorId;
                              v_status := statusOf results;
                              v_responseMs := responseMs results;
                              v_createdAt := createdAt |} ;;;
         if negb (isUp results) then
           open <- selectOpenIncidents monitorId ;;
           match open with
           | ongoingIncident :: _ =>
               t <- dateNow ;;
               let durationMs := (t - inc_startAt ongoingIncident)%Z in
               updateIncident (inc_id ongoingIncident) durationMs
                 (setOngoing durationMs (incidentErrorMessage results))
           | [] =>
               startAt <- dateNow ;;
               inserted <- insertIncident (mon_userId existingMonitor) monitorId Open
                             startAt None 0%Z (incidentErrorMessage results) ;;
               try_catch
                 (notification <- generateNotificationMessages
                                    (monitorCheckOf existingMonitor false) results true false ;;
                  notifyUser {| np_userId := mon_userId existingMonitor;
                                np_title := title notification;
                                np_message := message notification;
                                np_priority := Some (priority notification);
                                np_metadata :=
                                  Some {| md_monitorId := monitorId;
                                          md_incidentId := option_map inc_id (hd_error inserted);
                                          md_url := mon_url existingMonitor;
                                          md_errorType := Some (errorType results);
                                          md_downtimeDuration := None |} |} ;;;
                  ret tt)
                 (fun notificationError => ret tt)
           end
         else
           open <- selectOpenIncidents monitorId ;;
           match open with
           | ongoingIncident :: _ =>
               endTime <- dateNow ;;
               let totalDuration := (endTime - inc_startAt ongoingIncident)%Z in
               updateIncident (inc_id ongoingIncident) totalDuration
                 (setEnded endTime totalDuration) ;;;
               try_catch
                 (notification <- generateNotificationMessages
                                    (monitorCheckOf existingMonitor false) results false true ;;
                  notifyUser {| np_userId := mon_userId existingMonitor;
                                np_title := title notification;
                                np_message := message notification;
                                np_priority := Some (priority notification);
                                np_metadata :=
                                  Some {| md_monitorId := monitorId;
                                          md_incidentId := Some (inc_id ongoingIncident);
                                          md_url := mon_url existingMonitor;
                                          md_errorType := None;
                                          md_downtimeDuration := Some totalDuration |} |} ;;;
                  ret tt)
                 (fun notificationError => ret tt)
           | [] => ret tt
           end
     end)
    (fun error => throw error).

End Program.


(** * Properties *)

(** ** Concrete inputs used by the examples *)

Module Examples.

(** A world with one monitor (expecting 200) owned by user [u1], who has
    three channels. *)
Definition monitor1 : MonitorRow :=
  {| mon_id := 1; mon_name := "api"; mon_url := "https://api.example.com/health";
     mon_status := UnknownStatus; mon_method := "GET"; mon_headers := [];
     mon_expectedStatus := 200; mon_userId := "u1" |}.

Definition channels1 : list ChannelRow :=
  [ {| ch_id := 1; ch_userId := "u1"; ch_type := "email"; ch_value := "ops@example.com" |};
    {| ch_id := 2; ch_userId := "u1"; ch_type := "slack"; ch_value := "https://hooks.example.com/s" |};
    {| ch_id := 3; ch_userId := "u1"; ch_type := "webhook"; ch_value := "https://hooks.example.com/w" |} ].

Definition world0 : World :=
  {| monitors := [monitor1]; checkResults := []; incidents := [];
     channels := channels1; tick := 0; notifyCalls := [] |}.

(** An oracle whose clock advances by one second per effect, whose store
    is always reachable and scans in insertion order, whose mail and webhook transports succeed, and whose probe
    answers are given by [answer]. *)
Definition oracleOf (answer : nat -> Transport) : Oracle :=
  {| now := fun k => (1000 * Z.of_nat k)%Z;
     toLocaleString := fun t => Js.numberToString t;
     toISOString := fun t => Js.numberToString t;
     dbFails := fun _ => None;
     scanOrder := fun _ rows => rows;
     scanOrder_perm := fun _ rows => Permutation_refl rows;
     probe := answer;
     deliveryClock := fun k _ => (1000 * Z.of_nat k)%Z;
     post := fun _ _ _ _ => Responded {| resp_status := 200; resp_statusText := "OK" |};
     sendMail := fun _ _ _ => None;
     transporter := true;
     SMTP_FROM := Some "monitor@example.com" |}.

Definition respond (status : Z) (text : string) : Transport :=
  Responded {| resp_status := status; resp_statusText := text |}.

Definition alwaysUp : Oracle := oracleOf (fun _ => respond 200 "OK").
Definition alwaysDown : Oracle := oracleOf (fun _ => respond 503 "Service Unavailable").
Definition timingOut : Oracle :=
  oracleOf (fun _ => Failed (AxiosError (Some "ECONNABORTED") None "timeout of 10000ms exceeded")).

Definition check1 : MonitorCheck := monitorCheckOf monitor1 true.

End Examples.

(** ** The monad *)

Lemma try_catch_rethrow {A} (body : M A) (w : World) :
  try_catch body (fun error => throw error) w = body w.
Proof.
  unfold try_catch, throw. destruct (body w) as [[a|e] w']; reflexivity.
Qed.


(** ** The health prober *)

(** What [response.status === monitor.expectedStatus] will say of the
    transport's answer. *)
Definition answersUp (expected : Z) (t : Transport) : bool :=
  match t with
  | Responded r => (resp_status r =? expected)%Z
  | Failed _ => false
  end.

(** The way axios signals that the timeout budget was exceeded. *)
Definition timeoutSignal (e : JsError) : Prop :=
  exists c response message,
    e = AxiosError (Some c) response message /\
    (c = "ECONNABORTED" \/ c = "ETIMEDOUT").

Lemma performHealthCheck_returns (o : Oracle) (mc : MonitorCheck) (w : World) :
  exists r, performHealthCheck o mc w = (Ok r, set_tick (3 + tick w) w).
Proof.
  unfold performHealthCheck, try_catch, axiosRequest, settled, settle, dateNow, bind, effect, ret.
  cbn.
  destruct (probe o (S (tick w))) as [resp | e]; cbn.
  - destruct (resp_status resp =? expectedStatus mc)%Z; cbn; eexists; reflexivity.
  - destruct e as [code response msg | msg | ]; cbn; try (eexists; reflexivity).
    destruct code as [c|]; cbn.
    + destruct ((c =? "ECONNABORTED") || (c =? "ETIMEDOUT")); cbn;
        [eexists; reflexivity|].
      destruct ((c =? "ECONNREFUSED") || (c =? "ENOTFOUND")); cbn;
        [eexists; reflexivity|].
      destruct response as [r|]; [destruct (Js.truthyNumber (resp_status r))|];
        eexists; reflexivity.
    + destruct response as [r|]; [destruct (Js.truthyNumber (resp_status r))|];
        eexists; reflexivity.
Qed.

Lemma performHealthCheck_world (o : Oracle) (mc : MonitorCheck) (w w' : World)
    (r : Result CheckResults) :
  performHealthCheck o mc w = (r, w') -> w' = set_tick (3 + tick w) w.
Proof.
  intros H. destruct (performHealthCheck_returns o mc w) as [r0 H0].
  rewrite H0 in H. congruence.
Qed.

Lemma performHealthCheck_isUp (o : Oracle) (mc : MonitorCheck) (w w' : World)
    (r : CheckResults) :
  performHealthCheck o mc w = (Ok r, w') ->
  isUp r = answersUp (expectedStatus mc) (probe o (S (tick w))).
Proof.
  unfold performHealthCheck, try_catch, axiosRequest, settled, settle, dateNow, bind, effect, ret.
  cbn.
  destruct (probe o (S (tick w))) as [resp | e]; cbn.
  - destruct (resp_status resp =? expectedStatus mc)%Z eqn:E; cbn;
      intros H; inversion H; subst; cbn; congruence.
  - destruct e as [code response msg | msg | ]; cbn;
      try (intros H; inversion H; reflexivity).
    destruct code as [c|]; cbn.
    + destruct ((c =? "ECONNABORTED") || (c =? "ETIMEDOUT")); cbn;
        [intros H; inversion H; reflexivity|].
      destruct ((c =? "ECONNREFUSED") || (c =? "ENOTFOUND")); cbn;
        [intros H; inversion H; reflexivity|].
      destruct response as [r0|]; [destruct (Js.truthyNumber (resp_status r0))|];
        intros H; inversion H; reflexivity.
    + destruct response as [r0|]; [destruct (Js.truthyNumber (resp_status r0))|];
        intros H; inversion H; reflexivity.
Qed.

Ltac run_prober :=
  unfold performHealthCheck, try_catch, axiosRequest, settled, settle,
    dateNow, bind, effect, ret; cbn.

Lemma performHealthCheck_match (o : Oracle) (mc : MonitorCheck) (w w' : World)
    (r : CheckResults) (resp : AxiosResponse) :
  performHealthCheck o mc w = (Ok r, w') ->
  probe o (S (tick w)) = Responded resp ->
  resp_status resp = expectedStatus mc ->
  isUp r = true /\ statusCode r = Some (resp_status resp) /\ errorMessage r = None.
Proof.
  run_prober. intros H Hp Hs. rewrite Hp in H. cbn in H.
  rewrite Hs, Z.eqb_refl in H. cbn in H. inversion H; subst; cbn.
  rewrite Hs. auto.
Qed.

Lemma performHealthCheck_mismatch (o : Oracle) (mc : MonitorCheck) (w w' : World)
    (r : CheckResults) (resp : AxiosResponse) :
  performHealthCheck o mc w = (Ok r, w') ->
  probe o (S (tick w)) = Responded resp ->
  resp_status resp <> expectedStatus mc ->
  isUp r = false /\ errorType r = Status /\
  statusCode r = Some (resp_status resp) /\
  errorMessage r =
    Some ("Expected " ++ Js.numberToString (expectedStatus mc)
          ++ ", got " ++ Js.numberToString (resp_status resp)).
Proof.
  run_prober. intros H Hp Hs. rewrite Hp in H. cbn in H.
  apply Z.eqb_neq in Hs. rewrite Hs in H. cbn in H.
  inversion H; subst; cbn. auto.
Qed.

Lemma performHealthCheck_timeout (o : Oracle) (mc : MonitorCheck) (w w' : World)
    (r : CheckResults) (e : JsError) :
  performHealthCheck o mc w = (Ok r, w') ->
  probe o (S (tick w)) = Failed e ->
  timeoutSignal e ->
  isUp r = false /\ errorType r = Timeout /\
  errorMessage r =
    Some ("Request timeout after " ++ Js.numberToString (responseMs r) ++ "ms").
Proof.
  run_prober. intros H Hp (c & response & msg & -> & Hc). rewrite Hp in H. cbn in H.
  assert (Ht : (c =? "ECONNABORTED") || (c =? "ETIMEDOUT") = true).
  { destruct Hc as [-> | ->]; reflexivity. }
  rewrite Ht in H. cbn in H. inversion H; subst; cbn. auto.
Qed.

Lemma performHealthCheck_failed (o : Oracle) (mc : MonitorCheck) (w w' : World)
    (r : CheckResults) (e : JsError) :
  performHealthCheck o mc w = (Ok r, w') ->
  probe o (S (tick w)) = Failed e ->
  isUp r = false.
Proof.
  intros H Hp. rewrite (performHealthCheck_isUp o mc w w' r H), Hp. reflexivity.
Qed.

(** C6.  [performHealthCheck] always returns a result (it never rejects,
    whatever the transport does: an answer with any status, a timeout, a
    refused or unresolvable connection, any other thrown value), and the
    result is classified as follows: an answer whose status equals the
    expected status gives [isUp = true]; an answer with another status gives
    [isUp = false], [errorType = status] and the message "Expected X, got Y";
    a timeout signalled by the client gives [isUp = false] and
    [errorType = timeout]. *)
Theorem performHealthCheck_classifies (o : Oracle) (mc : MonitorCheck) (w : World) :
  exists r,
    performHealthCheck o mc w = (Ok r, set_tick (3 + tick w) w) /\
    (forall resp,
        probe o (S (tick w)) = Responded resp ->
        resp_status resp = expectedStatus mc ->
        isUp r = true) /\
    (forall resp,
        probe o (S (tick w)) = Responded resp ->
        resp_status resp <> expectedStatus mc ->
        isUp r = false /\ errorType r = Status /\
        errorMessage r =
          Some ("Expected " ++ Js.numberToString (expectedStatus mc)
                ++ ", got " ++ Js.numberToString (resp_status resp))) /\
    (forall e,
        probe o (S (tick w)) = Failed e ->
        timeoutSignal e ->
        isUp r = false /\ errorType r = Timeout).
Proof.
  destruct (performHealthCheck_returns o mc w) as [r Hr].
  exists r. split; [exact Hr|]. repeat split.
  - intros resp Hp Hs.
    apply (performHealthCheck_match o mc w _ r resp Hr Hp Hs).
  - apply (performHealthCheck_mismatch o mc w _ r resp Hr); assumption.
  - apply (performHealthCheck_mismatch o mc w _ r resp Hr); assumption.
  - apply (performHealthCheck_mismatch o mc w _ r resp Hr); assumption.
  - apply (performHealthCheck_timeout o mc w _ r e Hr); assumption.
  - apply (performHealthCheck_timeout o mc w _ r e Hr); assumption.
Qed.

Example performHealthCheck_up_200 :
  fst (performHealthCheck Examples.alwaysUp Examples.check1 Examples.world0)
  = Ok {| isUp := true; responseMs := 2000; statusCode := Some 200%Z;
          errorMessage := None; errorType := Unknown |}.
Proof. reflexivity. Qed.

Example performHealthCheck_down_503 :
  fst (performHealthCheck Examples.alwaysDown Examples.check1 Examples.world0)
  = Ok {| isUp := false; responseMs := 2000; statusCode := Some 503%Z;
          errorMessage := Some "Expected 200, got 503"; errorType := Status |}.
Proof. reflexivity. Qed.

Example performHealthCheck_timing_out :
  fst (performHealthCheck Examples.timingOut Examples.check1 Examples.world0)
  = Ok {| isUp := false; responseMs := 2000; statusCode := None;
          errorMessage := Some "Request timeout after 2000ms"; errorType := Timeout |}.
Proof. reflexivity. Qed.

(** C10.  A result of [performHealthCheck] with [isUp = false] carries an
    [errorMessage]: the field is absent only when [isUp = true]. *)
Theorem performHealthCheck_down_has_message (o : Oracle) (mc : MonitorCheck)
    (w w' : World) (r : CheckResults) :
  performHealthCheck o mc w = (Ok r, w') ->
  isUp r = false ->
  exists s, errorMessage r = Some s.
Proof.
  run_prober.
  destruct (probe o (S (tick w))) as [resp | e]; cbn.
  - destruct (resp_status resp =? expectedStatus mc)%Z; cbn;
      intros H Hd; inversion H; subst; cbn in *; [discriminate | eauto].
  - destruct e as [code response msg | msg | ]; cbn;
      try solve [intros H _; inversion H; subst; cbn; eauto].
    destruct code as [c|]; cbn.
    + destruct ((c =? "ECONNABORTED") || (c =? "ETIMEDOUT")); cbn;
        [intros H _; inversion H; subst; cbn; eauto|].
      destruct ((c =? "ECONNREFUSED") || (c =? "ENOTFOUND")); cbn;
        [intros H _; inversion H; subst; cbn; eauto|].
      destruct response as [r0|]; [destruct (Js.truthyNumber (resp_status r0))|];
        intros H _; inversion H; subst; cbn; eauto.
    + destruct response as [r0|]; [destruct (Js.truthyNumber (resp_status r0))|];
        intros H _; inversion H; subst; cbn; eauto.
Qed.

Lemma performHealthCheck_down_has_message_witness :
  exists s,
    errorMessage {| isUp := false; responseMs := 2000; statusCode := Some 503%Z;
                    errorMessage := Some "Expected 200, got 503";
                    errorType := Status |} = Some s.
Proof.
  apply (performHealthCheck_down_has_message Examples.alwaysDown Examples.check1
           Examples.world0 (set_tick 3 Examples.world0)); reflexivity.
Defined.

(** The converse direction of C10: an up result carries no message. *)
Lemma performHealthCheck_up_no_message (o : Oracle) (mc : MonitorCheck)
    (w w' : World) (r : CheckResults) :
  performHealthCheck o mc w = (Ok r, w') ->
  isUp r = true ->
  errorMessage r = None /\ errorType r = Unknown.
Proof.
  intros H Hu.
  pose proof (performHealthCheck_isUp o mc w w' r H) as Hi. rewrite Hu in Hi.
  destruct (probe o (S (tick w))) as [resp | e] eqn:Hp; [|discriminate].
  cbn in Hi. symmetry in Hi. apply Z.eqb_eq in Hi.
  revert H. run_prober. rewrite Hp. cbn. rewrite Hi, Z.eqb_refl. cbn.
  intros H; inversion H; subst; cbn; auto.
Qed.

(** ** The notification dispatcher *)

Section Dispatcher.

Variable o : Oracle.

Lemma mapIndexed_length {A B} (f : nat -> A -> B) (xs : list A) (i : nat) :
  List.length (mapIndexed f i xs) = List.length xs.
Proof.
  revert i. induction xs as [|x xs IH]; intros i; cbn; [reflexivity|].
  now rewrite IH.
Qed.

Lemma mapIndexed_nth {A B} (f : nat -> A -> B) (xs : list A) (i n : nat) :
  nth_error (mapIndexed f i xs) n = option_map (f (i + n)) (nth_error xs n).
Proof.
  revert i n. induction xs as [|x xs IH]; intros i n.
  - destruct n; reflexivity.
  - destruct n as [|n]; cbn.
    + now rewrite Nat.add_0_r.
    + rewrite IH. now rewrite Nat.add_succ_r.
Qed.

(** The entry a channel's promise settles to: the async callback catches
    every error, so the promise is always fulfilled. *)
Definition entryOf (k : nat) (title message : string) (priority : Priority)
    (i : nat) (channel : ChannelRow) : NotificationResult :=
  match deliver o k title message priority i channel with
  | Ok v => v
  | Throw e =>
      {| channelId := ch_id channel; type := ch_type channel;
         success := false; error := Some (reasonText e) |}
  end.

Lemma deliver_fulfilled (k : nat) (title message : string) (priority : Priority)
    (i : nat) (channel : ChannelRow) :
  deliver o k title message priority i channel
  = Ok (entryOf k title message priority i channel).
Proof.
  unfold entryOf, deliver.
  destruct (ch_type channel =? "email").
  - destruct (sendEmail o k i (ch_value channel) title message priority); reflexivity.
  - destruct ((ch_type channel =? "slack") || (ch_type channel =? "discord")
              || (ch_type channel =? "webhook")).
    + destruct (sendWebhook o k i (ch_value channel) title message
                  (ch_type channel) priority); reflexivity.
    + reflexivity.
Qed.

Lemma entryOf_channel (k : nat) (title message : string) (priority : Priority)
    (i : nat) (channel : ChannelRow) :
  channelId (entryOf k title message priority i channel) = ch_id channel /\
  type (entryOf k title message priority i channel) = ch_type channel.
Proof.
  unfold entryOf, deliver.
  destruct (ch_type channel =? "email").
  - destruct (sendEmail o k i (ch_value channel) title message priority); split; reflexivity.
  - destruct ((ch_type channel =? "slack") || (ch_type channel =? "discord")
              || (ch_type channel =? "webhook")).
    + destruct (sendWebhook o k i (ch_value channel) title message
                  (ch_type channel) priority); split; reflexivity.
    + split; reflexivity.
Qed.

(** When every promise is fulfilled, [forEach] pushes the values in order. *)
Lemma forEachSettled_fulfilled (allChannels : list ChannelRow)
    (f : nat -> ChannelRow -> NotificationResult) (xs : list ChannelRow) :
  forall (i : nat) (results : list NotificationResult),
    forEachSettled allChannels (mapIndexed (fun j c => Ok (f j c)) i xs) i results
    = Ok (results ++ mapIndexed f i xs)%list.
Proof.
  induction xs as [|x xs IH]; intros i results; cbn.
  - now rewrite app_nil_r.
  - rewrite IH. now rewrite <- app_assoc.
Qed.

Lemma mapIndexed_ext {A B} (f g : nat -> A -> B) (xs : list A) (i : nat) :
  (forall j x, f j x = g j x) -> mapIndexed f i xs = mapIndexed g i xs.
Proof.
  intros H. revert i. induction xs as [|x xs IH]; intros i; cbn; [reflexivity|].
  now rewrite H, IH.
Qed.

Definition channelsOf (userId : string) (w : World) : list ChannelRow :=
  filter (fun c => ch_userId c =? userId) (channels w).

Definition validPayload (payload : NotificationPayload) : Prop :=
  np_userId payload <> "" /\ np_title payload <> "" /\ np_message payload <> "".

Definition priorityOf (payload : NotificationPayload) : Priority :=
  match np_priority payload with Some p => p | None => medium end.

Lemma truthyString_true (s : string) : s <> "" -> Js.truthyString s = true.
Proof.
  intros H. unfold Js.truthyString. destruct (String.eqb_spec s ""); [contradiction|reflexivity].
Qed.

(** What one call of [notifyUser] does, for a payload that passes the
    parameter check. *)
Lemma notifyUser_run (payload : NotificationPayload) (w : World) :
  validPayload payload ->
  notifyUser o payload w =
    let w1 := set_notifyCalls (notifyCalls w ++ [payload]) w in
    match dbFails o (tick w) with
    | Some e => (Throw e, set_tick (S (tick w)) w1)
    | None =>
        match channelsOf (np_userId payload) w with
        | [] => (Ok [], set_tick (S (tick w)) w1)
        | c :: cs =>
            (Ok (mapIndexed (entryOf (S (tick w)) (np_title payload) (np_message payload)
                               (priorityOf payload)) 0 (c :: cs)),
             set_tick (S (S (tick w))) w1)
        end
    end.
Proof.
  intros (Hu & Ht & Hm). unfold notifyUser.
  rewrite (truthyString_true _ Hu), (truthyString_true _ Ht), (truthyString_true _ Hm).
  cbn [negb orb]. rewrite try_catch_rethrow.
  unfold selectChannels, dbCall, bind, effect. cbn.
  destruct (dbFails o (tick w)) as [e|]; [reflexivity|]. cbn.
  unfold channelsOf.
  destruct (filter (fun c => ch_userId c =? np_userId payload) (channels w)) as [|c cs] eqn:E.
  - reflexivity.
  - cbn [List.length Nat.eqb]. unfold settled.
    rewrite (mapIndexed_ext _ (fun j x => Ok (entryOf (S (tick w)) (np_title payload)
                                 (np_message payload) (priorityOf payload) j x)))
      by (intros; apply deliver_fulfilled).
    rewrite forEachSettled_fulfilled. reflexivity.
Qed.

(** A payload that fails the parameter check is rejected before the
    channels are even queried. *)
Lemma notifyUser_missing_parameters (payload : NotificationPayload) (w : World) :
  np_userId payload = "" \/ np_title payload = "" \/ np_message payload = "" ->
  notifyUser o payload w
  = (Throw (Error "Missing required notification parameters"),
     set_notifyCalls (notifyCalls w ++ [payload]) w).
Proof.
  intros H. unfold notifyUser.
  assert (E : negb (Js.truthyString (np_userId payload))
              || negb (Js.truthyString (np_title payload))
              || negb (Js.truthyString (np_message payload)) = true).
  { unfold Js.truthyString.
    destruct H as [-> | [-> | ->]]; cbn; rewrite ?orb_true_r; reflexivity. }
  rewrite E. reflexivity.
Qed.

End Dispatcher.

(** The two oracles give the delivery at position [i] of fan-out [k] the
    same clock and the same transports. *)
Definition sameDelivery (k i : nat) (o o' : Oracle) : Prop :=
  deliveryClock o k i = deliveryClock o' k i /\
  (forall url body, post o k i url body = post o' k i url body) /\
  (forall m, sendMail o k i m = sendMail o' k i m).

(** The two oracles agree on the mail configuration and on date rendering. *)
Definition sameConfiguration (o o' : Oracle) : Prop :=
  transporter o = transporter o' /\
  SMTP_FROM o = SMTP_FROM o' /\
  (forall t, toISOString o t = toISOString o' t).

Lemma entryOf_local (o o' : Oracle) (k : nat) (title message : string)
    (priority : Priority) (i : nat) (channel : ChannelRow) :
  sameConfiguration o o' ->
  sameDelivery k i o o' ->
  entryOf o k title message priority i channel
  = entryOf o' k title message priority i channel.
Proof.
  intros (Ht & Hf & Hiso) (Hc & Hp & Hm).
  unfold entryOf, deliver, sendEmail, sendWebhook, webhookBody.
  rewrite Ht, Hf, Hc.
  destruct (ch_type channel =? "email").
  - destruct (transporter o'); cbn; [|reflexivity].
    destruct (SMTP_FROM o') as [from|]; [|reflexivity].
    destruct (Js.truthyString from); cbn; [|reflexivity].
    now rewrite Hm.
  - destruct ((ch_type channel =? "slack") || (ch_type channel =? "discord")
              || (ch_type channel =? "webhook")); [|reflexivity].
    destruct (ch_type channel =? "slack"); [now rewrite Hp|].
    destruct (ch_type channel =? "discord"); rewrite Hiso; now rewrite Hp.
Qed.

(** C7 as the claim states it: whatever the payload, a call whose channel
    query succeeds returns one entry per channel of the user. *)
Definition notifyUser_returns_K_for_every_payload : Prop :=
  forall (o : Oracle) (payload : NotificationPayload) (w : World),
    dbFails o (tick w) = None ->
    exists results,
      fst (notifyUser o payload w) = Ok results /\
      List.length results = List.length (channelsOf (np_userId payload) w).

(** C7, counterexample.  The legacy entry point [notifyUser(userId, message)]
    with an empty message: the user has three channels and the store is
    available, yet the call raises and returns no entries. *)
Lemma notifyUser_empty_message_raises :
  ~ notifyUser_returns_K_for_every_payload.
Proof.
  intros H.
  destruct (H Examples.alwaysUp
              {| np_userId := "u1"; np_title := "Monitor Alert"; np_message := "";
                 np_priority := Some medium; np_metadata := None |}
              Examples.world0 eq_refl) as (results & Hr & _).
  cbn in Hr. discriminate Hr.
Qed.

(** C7, amended.  For a payload whose [userId], [title] and [message] are
    non-empty and a user with K >= 0 channels: the call raises exactly when
    the channel query rejects, and otherwise returns K entries, the entry at
    position [j] carrying the id and type of the channel at position [j] (so
    none when K = 0).  Changing what the delivery to one channel [i] does
    leaves the entry of every other channel as it was. *)
Theorem notifyUser_per_channel_results (o o' : Oracle)
    (payload : NotificationPayload) (w : World) (i : nat) :
  validPayload payload ->
  sameConfiguration o o' ->
  dbFails o (tick w) = dbFails o' (tick w) ->
  (forall j, j <> i -> sameDelivery (S (tick w)) j o o') ->
  match dbFails o (tick w) with
  | Some e => fst (notifyUser o payload w) = Throw e
  | None =>
      exists results results',
        fst (notifyUser o payload w) = Ok results /\
        fst (notifyUser o' payload w) = Ok results' /\
        List.length results = List.length (channelsOf (np_userId payload) w) /\
        (channelsOf (np_userId payload) w = [] -> results = []) /\
        (forall j c,
            nth_error (channelsOf (np_userId payload) w) j = Some c ->
            exists v, nth_error results j = Some v /\
                      channelId v = ch_id c /\ type v = ch_type c) /\
        (forall j, j <> i -> nth_error results j = nth_error results' j)
  end.
Proof.
  intros Hv Hcfg Hdb Hsame.
  rewrite (notifyUser_run o payload w Hv), (notifyUser_run o' payload w Hv).
  rewrite <- Hdb. cbv zeta.
  destruct (dbFails o (tick w)) as [e|]; [reflexivity|].
  destruct (channelsOf (np_userId payload) w) as [|c cs] eqn:E.
  - exists [], []. cbn. repeat split; auto.
    intros j c Hj. destruct j; discriminate.
  - eexists. eexists. cbn [fst]. split; [reflexivity|]. split; [reflexivity|].
    split; [apply mapIndexed_length|]. split; [discriminate|]. split.
    + intros j c' Hj. rewrite mapIndexed_nth, Hj. cbn.
      eexists. split; [reflexivity|]. apply entryOf_channel.
    + intros j Hj. rewrite !mapIndexed_nth. cbn.
      destruct (nth_error (c :: cs) j) as [c'|]; [|reflexivity]. cbn.
      f_equal. apply entryOf_local; auto.
Qed.

(** C8.  For a slack, discord or generic webhook channel whose endpoint
    answers the POST: a status of 500 or more makes the channel's entry a
    failure carrying the transport's error text; a status in 400..499 does
    not make [sendWebhook] throw, and the entry records a success. *)
Theorem webhook_status_outcome (o : Oracle) (payload : NotificationPayload)
    (w : World) (i : nat) (ch : ChannelRow) (resp : AxiosResponse) :
  validPayload payload ->
  dbFails o (tick w) = None ->
  nth_error (channelsOf (np_userId payload) w) i = Some ch ->
  ch_type ch = "slack" \/ ch_type ch = "discord" \/ ch_type ch = "webhook" ->
  post o (S (tick w)) i (ch_value ch)
       (webhookBody o (S (tick w)) i (np_title payload) (np_message payload)
                    (ch_type ch) (priorityOf payload)) = Responded resp ->
  exists results,
    fst (notifyUser o payload w) = Ok results /\
    ((500 <= resp_status resp)%Z ->
       nth_error results i =
         Some {| channelId := ch_id ch; type := ch_type ch; success := false;
                 error := Some ("Request failed with status code "
                                ++ Js.numberToString (resp_status resp)) |}) /\
    ((400 <= resp_status resp <= 499)%Z ->
       sendWebhook o (S (tick w)) i (ch_value ch) (np_title payload)
                   (np_message payload) (ch_type ch) (priorityOf payload) = Ok tt /\
       nth_error results i =
         Some {| channelId := ch_id ch; type := ch_type ch; success := true;
                 error := None |}).
Proof.
  intros Hv Hdb Hch Hty Hpost.
  rewrite (notifyUser_run o payload w Hv). rewrite Hdb. cbv zeta.
  destruct (channelsOf (np_userId payload) w) as [|c cs] eqn:E.
  { destruct i; discriminate. }
  eexists. cbn [fst]. split; [reflexivity|].
  assert (Hnot : (ch_type ch =? "email") = false).
  { destruct Hty as [-> | [-> | ->]]; reflexivity. }
  assert (Hweb : (ch_type ch =? "slack") || (ch_type ch =? "discord")
                 || (ch_type ch =? "webhook") = true).
  { destruct Hty as [-> | [-> | ->]]; reflexivity. }
  split.
  - intros Hs. rewrite mapIndexed_nth, Hch. cbn. f_equal.
    unfold entryOf, deliver. rewrite Hnot, Hweb.
    unfold sendWebhook. rewrite Hpost. cbn.
    assert (Hlt : (resp_status resp <? 500)%Z = false) by (apply Z.ltb_ge; lia).
    rewrite Hlt. reflexivity.
  - intros Hs.
    assert (Hlt : (resp_status resp <? 500)%Z = true) by (apply Z.ltb_lt; lia).
    assert (Hsend : sendWebhook o (S (tick w)) i (ch_value ch) (np_title payload)
                      (np_message payload) (ch_type ch) (priorityOf payload) = Ok tt).
    { unfold sendWebhook. rewrite Hpost. cbn. rewrite Hlt. reflexivity. }
    split; [exact Hsend|].
    rewrite mapIndexed_nth, Hch. cbn. f_equal.
    unfold entryOf, deliver. rewrite Hnot, Hweb.
    unfold priorityOf in Hsend. unfold priorityOf. rewrite Hsend. reflexivity.
Qed.

Module DispatchExamples.

Definition withPost (p : nat -> nat -> string -> WebhookBody -> Transport)
    (o : Oracle) : Oracle :=
  {| now := now o; toLocaleString := toLocaleString o; toISOString := toISOString o;
     dbFails := dbFails o; scanOrder := scanOrder o; scanOrder_perm := scanOrder_perm o;
     probe := probe o; deliveryClock := deliveryClock o;
     post := p; sendMail := sendMail o; transporter := transporter o;
     SMTP_FROM := SMTP_FROM o |}.

(** The endpoint of the channel at position 2 (the generic webhook of
    [Examples.channels1]) refuses the connection. *)
Definition webhookUnreachable : Oracle :=
  withPost (fun _ i _ _ =>
              if (i =? 2)%nat
              then Failed (AxiosError (Some "ECONNREFUSED") None
                             "connect ECONNREFUSED 203.0.113.7:443")
              else Examples.respond 200 "OK")
           Examples.alwaysUp.

(** Every webhook endpoint answers with [status]. *)
Definition webhooksAnswer (status : Z) (text : string) : Oracle :=
  withPost (fun _ _ _ _ => Examples.respond status text) Examples.alwaysUp.

Definition alert : NotificationPayload :=
  {| np_userId := "u1"; np_title := "Monitor Alert"; np_message := "api is down";
     np_priority := Some critical; np_metadata := None |}.

End DispatchExamples.

Example notifyUser_three_channels_one_unreachable :
  fst (notifyUser DispatchExamples.webhookUnreachable DispatchExamples.alert Examples.world0)
  = Ok [ {| channelId := 1; type := "email"; success := true; error := None |};
         {| channelId := 2; type := "slack"; success := true; error := None |};
         {| channelId := 3; type := "webhook"; success := false;
            error := Some "connect ECONNREFUSED 203.0.113.7:443" |} ].
Proof. reflexivity. Qed.

Lemma notifyUser_per_channel_results_witness :
  exists results results',
    fst (notifyUser Examples.alwaysUp DispatchExamples.alert Examples.world0)
      = Ok results /\
    fst (notifyUser DispatchExamples.webhookUnreachable DispatchExamples.alert
           Examples.world0) = Ok results' /\
    List.length results
      = List.length (channelsOf (np_userId DispatchExamples.alert) Examples.world0) /\
    (channelsOf (np_userId DispatchExamples.alert) Examples.world0 = [] -> results = []) /\
    (forall j c,
        nth_error (channelsOf (np_userId DispatchExamples.alert) Examples.world0) j = Some c ->
        exists v, nth_error results j = Some v /\
                  channelId v = ch_id c /\ type v = ch_type c) /\
    (forall j, j <> 2 -> nth_error results j = nth_error results' j).
Proof.
  apply (notifyUser_per_channel_results Examples.alwaysUp
           DispatchExamples.webhookUnreachable DispatchExamples.alert
           Examples.world0 2).
  - repeat split; discriminate.
  - repeat split; reflexivity.
  - reflexivity.
  - intros j Hj. repeat split; try reflexivity.
    intros url body. cbn.
    destruct (Nat.eqb_spec j 2); [contradiction | reflexivity].
Defined.

Example webhook_503_is_a_failure :
  fst (notifyUser (DispatchExamples.webhooksAnswer 503 "Service Unavailable")
         DispatchExamples.alert Examples.world0)
  = Ok [ {| channelId := 1; type := "email"; success := true; error := None |};
         {| channelId := 2; type := "slack"; success := false;
            error := Some "Request failed with status code 503" |};
         {| channelId := 3; type := "webhook"; success := false;
            error := Some "Request failed with status code 503" |} ].
Proof. reflexivity. Qed.

Example webhook_404_is_a_success :
  fst (notifyUser (DispatchExamples.webhooksAnswer 404 "Not Found")
         DispatchExamples.alert Examples.world0)
  = Ok [ {| channelId := 1; type := "email"; success := true; error := None |};
         {| channelId := 2; type := "slack"; success := true; error := None |};
         {| channelId := 3; type := "webhook"; success := true; error := None |} ].
Proof. reflexivity. Qed.

Lemma webhook_status_outcome_witness :
  exists results,
    fst (notifyUser (DispatchExamples.webhooksAnswer 503 "Service Unavailable")
           DispatchExamples.alert Examples.world0) = Ok results /\
    ((500 <= 503)%Z ->
       nth_error results 2 =
         Some {| channelId := 3; type := "webhook"; success := false;
                 error := Some ("Request failed with status code "
                                ++ Js.numberToString 503) |}) /\
    ((400 <= 503 <= 499)%Z ->
       sendWebhook (DispatchExamples.webhooksAnswer 503 "Service Unavailable") 1 2
                   "https://hooks.example.com/w" "Monitor Alert" "api is down"
                   "webhook" critical = Ok tt /\
       nth_error results 2 =
         Some {| channelId := 3; type := "webhook"; success := true;
                 error := None |}).
Proof.
  apply (webhook_status_outcome (DispatchExamples.webhooksAnswer 503 "Service Unavailable")
           DispatchExamples.alert Examples.world0 2
           {| ch_id := 3; ch_userId := "u1"; ch_type := "webhook";
              ch_value := "https://hooks.example.com/w" |}
           {| resp_status := 503; resp_statusText := "Service Unavailable" |}).
  - repeat split; discriminate.
  - reflexivity.
  - reflexivity.
  - right; right; reflexivity.
  - reflexivity.
Defined.

(** ** The job processor *)

Lemma string_empty_dec (s : string) : {s = ""} + {s <> ""}.
Proof. apply string_dec. Qed.

Lemma validPayload_dec (p : NotificationPayload) :
  {validPayload p} + {np_userId p = "" \/ np_title p = "" \/ np_message p = ""}.
Proof.
  unfold validPayload.
  destruct (string_empty_dec (np_userId p)); [right; auto|].
  destruct (string_empty_dec (np_title p)); [right; auto|].
  destruct (string_empty_dec (np_message p)); [right; auto|].
  left; auto.
Qed.

(** [notifyUser] touches no table; it only extends the trace of its calls. *)
Lemma notifyUser_frame (o : Oracle) (p : NotificationPayload) (w : World) :
  monitors (snd (notifyUser o p w)) = monitors w /\
  checkResults (snd (notifyUser o p w)) = checkResults w /\
  incidents (snd (notifyUser o p w)) = incidents w /\
  channels (snd (notifyUser o p w)) = channels w /\
  notifyCalls (snd (notifyUser o p w)) = (notifyCalls w ++ [p])%list.
Proof.
  destruct (validPayload_dec p) as [Hv | Hi].
  - rewrite (notifyUser_run o p w Hv). cbv zeta.
    destruct (dbFails o (tick w)); [cbn; auto|].
    destruct (channelsOf (np_userId p) w); cbn; auto.
  - rewrite (notifyUser_missing_parameters o p w Hi). cbn. auto.
Qed.

(** Rendering a message only reads the clock. *)
Lemma generateNotificationMessages_run (o : Oracle) (mc : MonitorCheck)
    (r : CheckResults) (isNew isResolved : bool) (w : World) :
  exists n,
    generateNotificationMessages o mc r isNew isResolved w
    = (Ok n, set_tick (S (tick w)) w).
Proof.
  unfold generateNotificationMessages.
  destruct isResolved; [|destruct isNew]; eexists; reflexivity.
Qed.

#[local] Arguments performHealthCheck : simpl never.
#[local] Arguments generateNotificationMessages : simpl never.
#[local] Arguments notifyUser : simpl never.
#[local] Arguments incidentErrorMessage : simpl never.
#[local] Arguments freshId : simpl never.
#[local] Arguments insertCheckResult : simpl never.
#[local] Arguments Pg.fitsInteger : simpl never.
#[local] Arguments Pg.notNullViolation : simpl never.
#[local] Arguments Pg.integerOutOfRange : simpl never.

(** Unfolds the job down to its effects; the insert of the check result is
    kept as one call. *)
Ltac unfold_job :=
  unfold worker; rewrite try_catch_rethrow;
  unfold selectMonitor, updateMonitorStatus, selectOpenIncidents,
    updateIncident, insertIncident, dbCall, dbExec, dateNow, try_catch, bind, effect,
    ret, throw;
  cbn.

Ltac unfold_worker :=
  unfold_job; unfold insertCheckResult, dbExec, bind, effect, throw; cbn.

(** The rows the queries of the job select. *)
Definition monitorRows (monitorId : uuid) (w : World) : list MonitorRow :=
  filter (fun m => mon_id m =? monitorId)%nat (monitors w).

Definition isOpenFor (monitorId : uuid) (i : IncidentRow) : bool :=
  (inc_monitorId i =? monitorId)%nat && isNull (inc_endAt i).

Definition openIncidents (monitorId : uuid) (l : list IncidentRow) : list IncidentRow :=
  filter (isOpenFor monitorId) l.

(** The result of the probe a job started in [w] makes for monitor row [m]. *)
Definition probeResult (o : Oracle) (m : MonitorRow) (w : World) : Result CheckResults :=
  fst (performHealthCheck o (monitorCheckOf m true) (set_tick (S (tick w)) w)).


Lemma string_append_assoc (a b c : string) : (a ++ b) ++ c = a ++ (b ++ c).
Proof. induction a as [|x a IH]; cbn; [reflexivity | now rewrite IH]. Qed.

Lemma includes_here (t post : string) : Js.includes (t ++ post) t.
Proof. exists "", post. reflexivity. Qed.

Lemma includes_append (s t u : string) : Js.includes t u -> Js.includes (s ++ t) u.
Proof.
  intros (pre & post & ->). exists (s ++ pre), post.
  now rewrite string_append_assoc.
Qed.

(** *** Queries after updates *)



(** *** Missing monitor *)

(** C9.  A job whose [monitorId] matches no monitor row completes without
    error and changes no table and sends nothing: the world it leaves
    differs from the one it found only by the one query it made. *)
Theorem worker_missing_monitor (o : Oracle) (monitorId : uuid) (w : World) :
  dbFails o (tick w) = None ->
  monitorRows monitorId w = [] ->
  worker o monitorId w = (Ok tt, set_tick (S (tick w)) w) /\
  monitors (snd (worker o monitorId w)) = monitors w /\
  checkResults (snd (worker o monitorId w)) = checkResults w /\
  incidents (snd (worker o monitorId w)) = incidents w /\
  channels (snd (worker o monitorId w)) = channels w /\
  notifyCalls (snd (worker o monitorId w)) = notifyCalls w.
Proof.
  intros Hdb Hm.
  assert (H : worker o monitorId w = (Ok tt, set_tick (S (tick w)) w)).
  { unfold_worker. rewrite Hdb. cbn. fold (monitorRows monitorId w). rewrite Hm.
    reflexivity. }
  rewrite H. cbn. repeat split; reflexivity.
Qed.

Lemma worker_missing_monitor_witness :
  worker Examples.alwaysDown 7 Examples.world0
    = (Ok tt, set_tick (S (tick Examples.world0)) Examples.world0) /\
  monitors (snd (worker Examples.alwaysDown 7 Examples.world0)) = monitors Examples.world0 /\
  checkResults (snd (worker Examples.alwaysDown 7 Examples.world0))
    = checkResults Examples.world0 /\
  incidents (snd (worker Examples.alwaysDown 7 Examples.world0)) = incidents Examples.world0 /\
  channels (snd (worker Examples.alwaysDown 7 Examples.world0)) = channels Examples.world0 /\
  notifyCalls (snd (worker Examples.alwaysDown 7 Examples.world0))
    = notifyCalls Examples.world0.
Proof.
  apply (worker_missing_monitor Examples.alwaysDown 7 Examples.world0); reflexivity.
Defined.

(** *** The insert of the check result *)

(** The outcome of [db.insert(checkResult).values(values)] in general: the
    call rejects (the store is unreachable, or the statement violates the
    schema), or [values] names a user and the row is appended. *)
Lemma insertCheckResult_outcome (o : Oracle) (values : CheckResultValues) (w : World) :
  (exists e,
      (dbFails o (tick w) = Some e \/
       (Pg.fitsInteger (v_responseMs values) = false /\
        e = Pg.integerOutOfRange (v_responseMs values)) \/
       e = Pg.notNullViolation "user_id" "check_result") /\
      insertCheckResult o values w = (Throw e, set_tick (S (tick w)) w)) \/
  (exists userId,
      v_userId values = Some userId /\
      insertCheckResult o values w =
        (Ok tt,
         set_checkResults
           (checkResults w ++
            [{| cr_id := freshId (map cr_id (checkResults w));
                cr_userId := userId;
                cr_monitorId := v_monitorId values; cr_status := v_status values;
                cr_responseMs := v_responseMs values;
                cr_createdAt := v_createdAt values |}])
           (set_tick (S (tick w)) w))).
Proof.
  unfold insertCheckResult, dbExec, bind, effect, throw. cbn.
  destruct (dbFails o (tick w)) as [e|] eqn:Edb.
  - left. exists e. split; [left; reflexivity | reflexivity].
  - destruct (Pg.fitsInteger (v_responseMs values)) eqn:Efits.
    + destruct (v_userId values) as [userId|] eqn:Euser.
      * right. exists userId. split; reflexivity.
      * left. eexists. split; [right; right; reflexivity | reflexivity].
    + left. eexists. split; [right; left; split; reflexivity | reflexivity].
Qed.

(** The object the worker passes has no [userId] ([index.ts], lines 226 to
    231), so its insert is never accepted. *)
Lemma insertCheckResult_without_userId (o : Oracle) (values : CheckResultValues)
    (w : World) :
  v_userId values = None ->
  exists e, insertCheckResult o values w = (Throw e, set_tick (S (tick w)) w).
Proof.
  intros Hnone.
  destruct (insertCheckResult_outcome o values w) as [(e & _ & H) | (u & Hu & _)].
  - exists e. exact H.
  - rewrite Hnone in Hu. discriminate.
Qed.

(** *** Every path of a job *)

(** Walks every path of [worker o monitorId w]: each call of the store
    either rejects or answers, the monitor is missing or found, the probe is
    up or down, an incident is open or not, the dispatcher returns or
    throws.  The insert of the check result is split by
    [insertCheckResult_outcome], so that the paths behind it are walked
    whatever object the insert is given.  [leaf] is run at the end of each
    path, where the goal speaks of a concrete outcome; the equations of the
    path are in the context. *)
Ltac db_split :=
  match goal with
  | |- context [match dbFails ?o ?k with _ => _ end] =>
      destruct (dbFails o k) eqn:?Edb; cbn
  end.

Ltac int_split leaf :=
  match goal with
  | |- context [if Pg.fitsInteger ?z then _ else _] =>
      destruct (Pg.fitsInteger z) eqn:?Efits; cbn; [|leaf]
  end.

Ltac check_split o leaf :=
  match goal with
  | |- context [insertCheckResult o ?v ?w1] =>
      destruct (insertCheckResult_outcome o v w1)
        as [(?e & ?Hcause & ?Hins) | (?userId & ?Huser & ?Hins)];
      rewrite Hins; cbn; [leaf | clear Huser]
  end.

Ltac scan_split o monitorId w :=
  match goal with
  | |- context [scanOrder o ?k ?rows] =>
      let Hperm := fresh "Hperm" in
      pose proof (scanOrder_perm o k rows) as Hperm;
      destruct (scanOrder o k rows) as [|?ongoing ?rest] eqn:?Hscan;
      [ apply Permutation_nil in Hperm;
        change (openIncidents monitorId (incidents w) = []) in Hperm
      | clear Hperm ];
      cbn
  end.

Ltac notify_split o :=
  match goal with
  | |- context [generateNotificationMessages o ?mc ?r ?a ?b ?w1] =>
      let n := fresh "n" in
      let Hn := fresh "Hn" in
      destruct (generateNotificationMessages_run o mc r a b w1) as [n Hn]; rewrite Hn
  end;
  match goal with
  | |- context [notifyUser o ?p ?w1] =>
      let Hm := fresh "Fmonitors" in
      let Hc := fresh "Fchecks" in
      let Hi := fresh "Fincidents" in
      let Hh := fresh "Fchannels" in
      let Hn := fresh "Fcalls" in
      destruct (notifyUser_frame o p w1) as (Hm & Hc & Hi & Hh & Hn);
      destruct (notifyUser o p w1) as [[?res|?e] ?w'];
      cbn in Hm, Hc, Hi, Hh, Hn |- *;
      rewrite ?Hm, ?Hc, ?Hi, ?Hh, ?Hn
  end.

Ltac worker_paths o monitorId w leaf :=
  unfold_job;
  db_split; [leaf|];
  destruct (filter (fun m => (mon_id m =? monitorId)%nat) (monitors w))
    as [|?m ?ms] eqn:?Hrows; [leaf|];
  match goal with
  | |- context [performHealthCheck o ?mc ?w1] =>
      let r := fresh "r" in
      let Hr := fresh "Hr" in
      destruct (performHealthCheck_returns o mc w1) as [r Hr]; rewrite Hr; cbn;
      (db_split; [leaf|]);
      check_split o leaf;
      destruct (isUp r) eqn:?Hup; cbn;
      (db_split; [leaf|]);
      scan_split o monitorId w;
      try (db_split; [leaf|]);
      try int_split leaf;
      try notify_split o;
      leaf
  end.



(** *** The jobs of a monitor with and without an open incident *)

Module OpenIncidentExample.

(** Monitor 1 of [Examples.world0] is down and has an open incident that
    started at 8000; the next job starts at effect 20. *)
Definition openIncident : IncidentRow :=
  {| inc_id := 1; inc_monitorId := 1; inc_userId := "u1"; inc_status := Open;
     inc_startAt := 8000; inc_endAt := None; inc_durationMs := Some 0%Z;
     inc_errorMessage := Some "Expected 200, got 500" |}.

Definition world : World :=
  {| monitors := [setMonitorStatus Down Examples.monitor1]; checkResults := [];
     incidents := [openIncident]; channels := Examples.channels1; tick := 20;
     notifyCalls := [] |}.

(** What a job started in [world] leaves when the probe said [s]. *)
Definition afterJob (s : MonitorStatus) : World :=
  {| monitors := [setMonitorStatus s Examples.monitor1]; checkResults := [];
     incidents := [openIncident]; channels := Examples.channels1; tick := 27;
     notifyCalls := [] |}.

End OpenIncidentExample.

(** C5, at the failing input.  Monitor 1 has no open incident and its probe
    times out (down).  The job writes the monitor status, then its insert
    of the check result is rejected for the missing [user_id]; the job
    fails there: no incident row is created and the dispatcher is not
    invoked, so no "Service Down" notification is sent. *)
Theorem worker_rejects_before_incident_creation :
  openIncidents 1 (incidents Examples.world0) = [] /\
  probeResult Examples.timingOut Examples.monitor1 Examples.world0
    = Ok {| isUp := false; responseMs := 2000; statusCode := None;
            errorMessage := Some "Request timeout after 2000ms";
            errorType := Timeout |} /\
  worker Examples.timingOut 1 Examples.world0
    = (Throw (Pg.notNullViolation "user_id" "check_result"),
       {| monitors := [setMonitorStatus Down Examples.monitor1]; checkResults := [];
          incidents := []; channels := Examples.channels1; tick := 7;
          notifyCalls := [] |}).
Proof. vm_compute. repeat split; reflexivity. Qed.

(** The row that was open: what the update of the resolve path writes. *)
Lemma setEnded_fields (endAt durationMs : Z) (i : IncidentRow) :
  inc_endAt (setEnded endAt durationMs i) = Some endAt /\
  inc_durationMs (setEnded endAt durationMs i) = Some durationMs /\
  inc_startAt (setEnded endAt durationMs i) = inc_startAt i /\
  inc_status (setEnded endAt durationMs i) = inc_status i.
Proof. repeat split. Qed.

(** C1, at the failing input.  Monitor 1 has an open incident and the probe
    is up.  The job writes the monitor status, then its insert of the check
    result is rejected for the missing [user_id] and the job fails: the
    incident keeps [endAt = null] and status open, and the dispatcher is
    not invoked, so no "Service Restored" notification is sent.  Moreover
    the update the job would go on to make sets [endAt] and [durationMs]
    only: it leaves the status of the row as it is. *)
Theorem worker_rejects_before_resolution :
  openIncidents 1 (incidents OpenIncidentExample.world)
    = [OpenIncidentExample.openIncident] /\
  probeResult Examples.alwaysUp (setMonitorStatus Down Examples.monitor1)
              OpenIncidentExample.world
    = Ok {| isUp := true; responseMs := 2000; statusCode := Some 200%Z;
            errorMessage := None; errorType := Unknown |} /\
  worker Examples.alwaysUp 1 OpenIncidentExample.world
    = (Throw (Pg.notNullViolation "user_id" "check_result"),
       OpenIncidentExample.afterJob Up) /\
  map (fun i => (inc_endAt i, inc_status i))
      (incidents (OpenIncidentExample.afterJob Up)) = [(None, Open)] /\
  notifyCalls (OpenIncidentExample.afterJob Up) = [] /\
  (forall (endAt durationMs : Z) (i : IncidentRow),
      inc_status (setEnded endAt durationMs i) = inc_status i).
Proof. vm_compute. repeat split; reflexivity. Qed.

(** The data invariant of the incident table: [endAt] is null exactly when
    [status] is open. *)
Definition endMatchesStatus (i : IncidentRow) : bool :=
  Bool.eqb (isNull (inc_endAt i))
           (match inc_status i with Open => true | Resolved => false end).

(** The ongoing update touches neither column. *)
Lemma setOngoing_endMatchesStatus (d : Z) (e : string) (i : IncidentRow) :
  endMatchesStatus (setOngoing d e i) = endMatchesStatus i.
Proof. reflexivity. Qed.

(** The update of the resolve path breaks the invariant for every row that
    satisfied it while open. *)
Lemma setEnded_endMatchesStatus (t d : Z) (i : IncidentRow) :
  inc_status i = Open -> endMatchesStatus (setEnded t d i) = false.
Proof. intros H. unfold endMatchesStatus. cbn. now rewrite H. Qed.

(** C3, at the failing input.  The table satisfies the invariant, monitor 1
    has an open incident and the probe is up.  The job does not resolve
    the incident: it fails at the insert of the check result and the row
    keeps [endAt = null] and status open.  And the fields of the resolving
    update in the job's code ([.set({endAt, durationMs})]) give every open
    row an end time and leave its status open; run by the store on that
    table (here with the values the job would compute from the clock at
    effect 28) the update is accepted and leaves such a row, which violates
    the invariant. *)
Theorem resolve_update_omits_status :
  forallb endMatchesStatus (incidents OpenIncidentExample.world) = true /\
  worker Examples.alwaysUp 1 OpenIncidentExample.world
    = (Throw (Pg.notNullViolation "user_id" "check_result"),
       OpenIncidentExample.afterJob Up) /\
  incidents (OpenIncidentExample.afterJob Up) = incidents OpenIncidentExample.world /\
  (forall (endAt durationMs : Z) (i : IncidentRow),
      inc_status i = Open ->
      inc_endAt (setEnded endAt durationMs i) = Some endAt /\
      inc_status (setEnded endAt durationMs i) = Open /\
      endMatchesStatus (setEnded endAt durationMs i) = false) /\
  (let endTime := now Examples.alwaysUp 28 in
   let totalDuration := (endTime - inc_startAt OpenIncidentExample.openIncident)%Z in
   exists w',
     updateIncident Examples.alwaysUp (inc_id OpenIncidentExample.openIncident)
       totalDuration (setEnded endTime totalDuration) OpenIncidentExample.world
     = (Ok tt, w') /\
     incidents w' =
       [{| inc_id := 1; inc_monitorId := 1; inc_userId := "u1"; inc_status := Open;
           inc_startAt := 8000; inc_endAt := Some 28000%Z;
           inc_durationMs := Some 20000%Z;
           inc_errorMessage := Some "Expected 200, got 500" |}] /\
     forallb endMatchesStatus (incidents w') = false).
Proof.
  split; [reflexivity|]. split; [vm_compute; reflexivity|]. split; [reflexivity|].
  split.
  - intros endAt durationMs i Hopen. split; [reflexivity|]. split; [exact Hopen|].
    exact (setEnded_endMatchesStatus endAt durationMs i Hopen).
  - cbv zeta. eexists. split; [vm_compute; reflexivity|]. split; reflexivity.
Qed.

(** *** At most one open incident per monitor *)


(** The worlds a sequence of jobs (for any monitors, against any oracles,
    one job at a time) can leave, starting from [w0]. *)
Inductive reachable (w0 : World) : World -> Prop :=
| reach_start : reachable w0 w0
| reach_job (w : World) (o : Oracle) (monitorId : uuid) :
    reachable w0 w -> reachable w0 (snd (worker o monitorId w)).






(** *** Open, down: consecutive down results *)

(** [n] jobs for the same monitor, one after the other: the outcome of each
    and the world it leaves. *)
Fixpoint runJobs (o : Oracle) (monitorId : uuid) (n : nat) (w : World)
    : list (Result unit * World) :=
  match n with
  | 0 => []
  | S n' =>
      worker o monitorId w :: runJobs o monitorId n' (snd (worker o monitorId w))
  end.

(** C4, at the failing input.  Monitor 1 has an open incident (started at
    8000, [durationMs] 0, error text of an earlier 500) and is checked
    twice in a row; both probes answer 503 (down).  Each job fails at the
    insert of the check result, before it queries the incident: the table
    keeps its one row and nothing is handed to the dispatcher, but the row
    is not updated.  Its [durationMs] stays 0, which is [now - startAt] for
    no clock value the jobs read, and its error text is not the one of the
    probes. *)
Theorem worker_rejects_before_ongoing_update :
  openIncidents 1 (incidents OpenIncidentExample.world)
    = [OpenIncidentExample.openIncident] /\
  probeResult Examples.alwaysDown (setMonitorStatus Down Examples.monitor1)
              OpenIncidentExample.world
    = Ok {| isUp := false; responseMs := 2000; statusCode := Some 503%Z;
            errorMessage := Some "Expected 200, got 503"; errorType := Status |} /\
  map (fun rw => (fst rw, incidents (snd rw), notifyCalls (snd rw)))
      (runJobs Examples.alwaysDown 1 2 OpenIncidentExample.world)
    = [ (Throw (Pg.notNullViolation "user_id" "check_result"),
         [OpenIncidentExample.openIncident], []);
        (Throw (Pg.notNullViolation "user_id" "check_result"),
         [OpenIncidentExample.openIncident], []) ] /\
  inc_errorMessage OpenIncidentExample.openIncident = Some "Expected 200, got 500" /\
  (forall k, (tick OpenIncidentExample.world <= k)%nat ->
     inc_durationMs OpenIncidentExample.openIncident
     <> Some (now Examples.alwaysDown k - inc_startAt OpenIncidentExample.openIncident)%Z).
Proof.
  split; [reflexivity|]. split; [vm_compute; reflexivity|].
  split; [vm_compute; reflexivity|]. split; [reflexivity|].
  intros k Hk H.
  change (Some 0%Z = Some (1000 * Z.of_nat k - 8000)%Z) in H.
  change (20 <= k)%nat in Hk.
  assert (H' : (0 = 1000 * Z.of_nat k - 8000)%Z)
    by exact (f_equal (fun d => match d with Some z => z | None => 0%Z end) H).
  lia.
Qed.
(** * Further properties of the code *)

(** ** The queue connection ([src/index.ts]) *)

(** [retryStrategy(times) { return Math.min(times * 100, 2000); }] *)
Definition retryStrategy (times : Z) : Z := Z.min (times * 100) 2000.

(** X1.  The reconnection delay never exceeds two seconds, grows with the
    number of attempts, is 100 ms per attempt up to the twentieth, and is
    capped at 2000 ms from the twentieth attempt on. *)
Theorem retryStrategy_backoff (times : Z) :
  (retryStrategy times <= 2000)%Z /\
  (forall later, (times <= later)%Z -> (retryStrategy times <= retryStrategy later)%Z) /\
  ((times <= 20)%Z -> retryStrategy times = (times * 100)%Z) /\
  ((20 <= times)%Z -> retryStrategy times = 2000%Z) /\
  ((1 <= times)%Z -> (100 <= retryStrategy times)%Z).
Proof.
  unfold retryStrategy. repeat split; intros; lia.
Qed.

(** ** More on the health prober *)

(** Splits [performHealthCheck] into the outcomes of the transport; every
    goal is left with the equation of the returned pair as its premise. *)
Ltac prober_cases o mc w :=
  run_prober;
  destruct (probe o (S (tick w))) as [?resp | [?code ?response ?msg | ?msg | ]]; cbn;
  [ destruct (resp_status resp =? expectedStatus mc)%Z eqn:?Estatus; cbn
  | destruct code as [?c|]; cbn;
    [ destruct ((c =? "ECONNABORTED") || (c =? "ETIMEDOUT")) eqn:?Etimeout; cbn;
      [ | destruct ((c =? "ECONNREFUSED") || (c =? "ENOTFOUND")) eqn:?Enetwork; cbn;
          [ | destruct response as [?r0|];
              [destruct (Js.truthyNumber (resp_status r0)) eqn:?Etruthy|]; cbn ] ]
    | destruct response as [?r0|];
        [destruct (Js.truthyNumber (resp_status r0)) eqn:?Etruthy|]; cbn ]
  | | ].

(** X2.  The probe has no side effect on the store and measures wall-clock
    time whatever the outcome: it leaves every table and the dispatcher
    trace as they were, and [responseMs] is the clock read after the request
    settled minus the clock read before it was sent. *)
Theorem performHealthCheck_elapsed (o : Oracle) (mc : MonitorCheck) (w : World) :
  exists r w',
    performHealthCheck o mc w = (Ok r, w') /\
    responseMs r = (now o (2 + tick w) - now o (tick w))%Z /\
    monitors w' = monitors w /\ checkResults w' = checkResults w /\
    incidents w' = incidents w /\ channels w' = channels w /\
    notifyCalls w' = notifyCalls w.
Proof.
  prober_cases o mc w; eexists; eexists; (split; [reflexivity|]); cbn;
    repeat split; reflexivity.
Qed.

(** X3.  A result is up exactly when the transport delivered a response
    whose status is the expected one: no failure of the request and no
    other status ever yields [isUp = true]. *)
Theorem performHealthCheck_up_iff (o : Oracle) (mc : MonitorCheck) (w : World) :
  exists r,
    fst (performHealthCheck o mc w) = Ok r /\
    (isUp r = true <->
     exists resp, probe o (S (tick w)) = Responded resp /\
                  resp_status resp = expectedStatus mc).
Proof.
  destruct (performHealthCheck_returns o mc w) as [r Hr].
  exists r. rewrite Hr. split; [reflexivity|].
  rewrite (performHealthCheck_isUp o mc w _ r Hr).
  destruct (probe o (S (tick w))) as [resp | e]; cbn.
  - rewrite Z.eqb_eq. split.
    + intros H. exists resp. auto.
    + intros (resp' & Heq & H). now inversion Heq; subst.
  - split; [discriminate|]. intros (resp' & Heq & _). discriminate.
Qed.

(** X4.  A refused or unresolvable connection ([ECONNREFUSED], [ENOTFOUND])
    is classified as a network error, whether or not the error carries a
    response: [isUp = false], [errorType = network], no status code, and
    the message names the error code. *)
Theorem performHealthCheck_network (o : Oracle) (mc : MonitorCheck) (w w' : World)
    (r : CheckResults) (c : string) (response : option AxiosResponse) (msg : string) :
  performHealthCheck o mc w = (Ok r, w') ->
  probe o (S (tick w)) = Failed (AxiosError (Some c) response msg) ->
  c = "ECONNREFUSED" \/ c = "ENOTFOUND" ->
  isUp r = false /\ errorType r = Network /\ statusCode r = None /\
  errorMessage r = Some ("Network error: " ++ c).
Proof.
  run_prober. intros H Hp Hc. rewrite Hp in H. cbn in H.
  assert (Ht : (c =? "ECONNABORTED") || (c =? "ETIMEDOUT") = false)
    by (destruct Hc as [-> | ->]; reflexivity).
  assert (Hn : (c =? "ECONNREFUSED") || (c =? "ENOTFOUND") = true)
    by (destruct Hc as [-> | ->]; reflexivity).
  rewrite Ht in H. cbn in H. rewrite Hn in H. cbn in H.
  inversion H; subst; cbn. auto.
Qed.

Definition refusing : Oracle :=
  Examples.oracleOf
    (fun _ => Failed (AxiosError (Some "ECONNREFUSED") None
                        "connect ECONNREFUSED 203.0.113.7:443")).

Definition resultRefused : CheckResults :=
  {| isUp := false; responseMs := 2000; statusCode := None;
     errorMessage := Some "Network error: ECONNREFUSED"; errorType := Network |}.

Lemma performHealthCheck_network_witness :
  isUp resultRefused = false /\ errorType resultRefused = Network /\
  statusCode resultRefused = None /\
  errorMessage resultRefused = Some ("Network error: " ++ "ECONNREFUSED").
Proof.
  apply (performHealthCheck_network refusing Examples.check1 Examples.world0
           (set_tick 3 Examples.world0) resultRefused "ECONNREFUSED" None
           "connect ECONNREFUSED 203.0.113.7:443").
  - reflexivity.
  - reflexivity.
  - left; reflexivity.
Defined.

(** X5.  The fields of a result are consistent with its classification:
    [errorType = status] only with [isUp = false] and a status code present;
    a timeout or network result never carries a status code; an up result
    carries the expected status code and the default [errorType]. *)
Theorem performHealthCheck_result_consistent (o : Oracle) (mc : MonitorCheck)
    (w w' : World) (r : CheckResults) :
  performHealthCheck o mc w = (Ok r, w') ->
  (errorType r = Status -> isUp r = false /\ exists c, statusCode r = Some c) /\
  (errorType r = Timeout \/ errorType r = Network -> statusCode r = None) /\
  (isUp r = true -> statusCode r = Some (expectedStatus mc) /\ errorType r = Unknown).
Proof.
  prober_cases o mc w; intros H; inversion H; subst; cbn;
    (split; [|split]);
    try solve [ intros; discriminate
              | intros [?|?]; discriminate
              | intros; split; eauto
              | intros; reflexivity ].
  intros _. apply Z.eqb_eq in Estatus. rewrite Estatus. auto.
Qed.

Definition resultDown503 : CheckResults :=
  {| isUp := false; responseMs := 2000; statusCode := Some 503%Z;
     errorMessage := Some "Expected 200, got 503"; errorType := Status |}.

Lemma performHealthCheck_result_consistent_witness :
  (errorType resultDown503 = Status ->
   isUp resultDown503 = false /\ exists c, statusCode resultDown503 = Some c) /\
  (errorType resultDown503 = Timeout \/ errorType resultDown503 = Network ->
   statusCode resultDown503 = None) /\
  (isUp resultDown503 = true ->
   statusCode resultDown503 = Some (expectedStatus Examples.check1) /\
   errorType resultDown503 = Unknown).
Proof.
  apply (performHealthCheck_result_consistent Examples.alwaysDown Examples.check1
           Examples.world0 (set_tick 3 Examples.world0) resultDown503).
  reflexivity.
Defined.

(** ** More on message rendering *)

(** X6.  Which message is rendered: [isResolved] wins over [isNewIncident]
    when both are set, and with neither the "Service Still Down" message of
    priority high is rendered.  Every message names the service, by the
    monitor's name or, when the name is absent or empty, by its URL, and
    neither the title nor the message is ever empty.  Rendering reads the
    clock once and changes nothing else. *)
Theorem generateNotificationMessages_kinds (o : Oracle) (mc : MonitorCheck)
    (r : CheckResults) (isNew isResolved : bool) (w : World) :
  exists n,
    generateNotificationMessages o mc r isNew isResolved w
      = (Ok n, set_tick (S (tick w)) w) /\
    priority n = (if isResolved then medium else if isNew then critical else high) /\
    title n =
      (if isResolved then "✅ Service Restored: "
       else if isNew then "🚨 Service Down: " else "⚠️ Service Still Down: ")
      ++ Js.orUndefString (name mc) (url mc) /\
    Js.includes (message n) (Js.orUndefString (name mc) (url mc)) /\
    (name mc = None \/ name mc = Some "" -> Js.orUndefString (name mc) (url mc) = url mc) /\
    title n <> "" /\ message n <> "".
Proof.
  unfold generateNotificationMessages, dateNow, bind, effect, ret.
  assert (Hname : name mc = None \/ name mc = Some "" ->
                  Js.orUndefString (name mc) (url mc) = url mc).
  { intros [H | H]; rewrite H; reflexivity. }
  destruct isResolved; [|destruct isNew];
    (eexists; split; [reflexivity|]; cbn [title message priority];
     split; [reflexivity|]; split; [reflexivity|];
     split; [repeat first [apply includes_here | apply includes_append]|];
     split; [exact Hname|]; split; cbn; discriminate).
Qed.

(** X7.  The error text stored with an incident is never empty: it is the
    probe's message when that is a non-empty string, and otherwise "HTTP "
    followed by the status code, or by "Unknown" when the status code is
    absent or zero. *)
Theorem incidentErrorMessage_text (r : CheckResults) :
  incidentErrorMessage r <> "" /\
  (forall s, errorMessage r = Some s -> s <> "" -> incidentErrorMessage r = s) /\
  (errorMessage r = None \/ errorMessage r = Some "" ->
   incidentErrorMessage r =
     "HTTP " ++ match statusCode r with
                | Some c => if (c =? 0)%Z then "Unknown" else Js.numberToString c
                | None => "Unknown"
                end).
Proof.
  unfold incidentErrorMessage, Js.orUndefString, Js.orString, Js.truthyString,
    statusCodeOr, Js.truthyNumber.
  split; [|split].
  - destruct (errorMessage r) as [s|]; [|cbn; discriminate].
    destruct (String.eqb_spec s ""); cbn; [discriminate | assumption].
  - intros s -> Hs. destruct (String.eqb_spec s ""); cbn; [contradiction | reflexivity].
  - intros [-> | ->]; cbn; destruct (statusCode r) as [c|]; try reflexivity;
      destruct (c =? 0)%Z; reflexivity.
Qed.

(** ** More on the dispatcher *)

Lemma entryOf_success_error (o : Oracle) (k : nat) (title message : string)
    (priority : Priority) (i : nat) (channel : ChannelRow) :
  success (entryOf o k title message priority i channel) = true <->
  error (entryOf o k title message priority i channel) = None.
Proof.
  unfold entryOf, deliver.
  destruct (ch_type channel =? "email").
  - destruct (sendEmail o k i (ch_value channel) title message priority); cbn;
      split; congruence.
  - destruct ((ch_type channel =? "slack") || (ch_type channel =? "discord")
              || (ch_type channel =? "webhook")).
    + destruct (sendWebhook o k i (ch_value channel) title message
                  (ch_type channel) priority); cbn; split; congruence.
    + cbn. split; congruence.
Qed.

Lemma Forall_mapIndexed {A B} (P : B -> Prop) (f : nat -> A -> B) (xs : list A) (i : nat) :
  (forall j x, P (f j x)) -> Forall P (mapIndexed f i xs).
Proof.
  intros H. revert i. induction xs as [|x xs IH]; intros i; cbn; constructor; auto.
Qed.

Lemma mapIndexed_map {A B C} (g : B -> C) (h : A -> C) (f : nat -> A -> B)
    (xs : list A) (i : nat) :
  (forall j x, g (f j x) = h x) -> map g (mapIndexed f i xs) = map h xs.
Proof.
  intros H. revert i. induction xs as [|x xs IH]; intros i; cbn; [reflexivity|].
  now rewrite H, IH.
Qed.

(** The entries of a call that returned. *)
Lemma notifyUser_returned (o : Oracle) (p : NotificationPayload) (w : World)
    (results : list NotificationResult) :
  fst (notifyUser o p w) = Ok results ->
  validPayload p /\ dbFails o (tick w) = None /\
  results = mapIndexed (entryOf o (S (tick w)) (np_title p) (np_message p) (priorityOf p))
              0 (channelsOf (np_userId p) w).
Proof.
  destruct (validPayload_dec p) as [Hv | Hi].
  - rewrite (notifyUser_run o p w Hv). cbv zeta.
    destruct (dbFails o (tick w)); [discriminate|].
    destruct (channelsOf (np_userId p) w) as [|c cs]; cbn [fst];
      intros H; inversion H; subst; auto.
  - rewrite (notifyUser_missing_parameters o p w Hi). discriminate.
Qed.

Lemma notifyUser_entries_shape (o : Oracle) (p : NotificationPayload)
    (w : World) (results : list NotificationResult) :
  fst (notifyUser o p w) = Ok results ->
  map channelId results = map ch_id (channelsOf (np_userId p) w) /\
  map type results = map ch_type (channelsOf (np_userId p) w).
Proof.
  intros H. destruct (notifyUser_returned o p w results H) as (_ & _ & ->).
  split; apply mapIndexed_map; intros j x; apply entryOf_channel.
Qed.

(** X8.  Whenever [notifyUser] returns, its entries are in the order of the
    user's channels, one per channel with that channel's id and type, and
    each entry is well formed: [error] is absent exactly when [success] is
    true. *)
Theorem notifyUser_entries_well_formed (o : Oracle) (p : NotificationPayload)
    (w : World) (results : list NotificationResult) :
  fst (notifyUser o p w) = Ok results ->
  map channelId results = map ch_id (channelsOf (np_userId p) w) /\
  map type results = map ch_type (channelsOf (np_userId p) w) /\
  Forall (fun v => success v = true <-> error v = None) results.
Proof.
  intros H. destruct (notifyUser_returned o p w results H) as (_ & _ & ->).
  split; [|split].
  - apply mapIndexed_map. intros j x. apply entryOf_channel.
  - apply mapIndexed_map. intros j x. apply entryOf_channel.
  - apply Forall_mapIndexed. intros j x. apply entryOf_success_error.
Qed.

Lemma notifyUser_entries_well_formed_witness :
  map channelId
      [ {| channelId := 1; type := "email"; success := true; error := None |};
        {| channelId := 2; type := "slack"; success := true; error := None |};
        {| channelId := 3; type := "webhook"; success := false;
           error := Some "connect ECONNREFUSED 203.0.113.7:443" |} ]
    = map ch_id (channelsOf (np_userId DispatchExamples.alert) Examples.world0) /\
  map type
      [ {| channelId := 1; type := "email"; success := true; error := None |};
        {| channelId := 2; type := "slack"; success := true; error := None |};
        {| channelId := 3; type := "webhook"; success := false;
           error := Some "connect ECONNREFUSED 203.0.113.7:443" |} ]
    = map ch_type (channelsOf (np_userId DispatchExamples.alert) Examples.world0) /\
  Forall (fun v => success v = true <-> error v = None)
      [ {| channelId := 1; type := "email"; success := true; error := None |};
        {| channelId := 2; type := "slack"; success := true; error := None |};
        {| channelId := 3; type := "webhook"; success := false;
           error := Some "connect ECONNREFUSED 203.0.113.7:443" |} ].
Proof.
  apply (notifyUser_entries_well_formed DispatchExamples.webhookUnreachable
           DispatchExamples.alert Examples.world0).
  reflexivity.
Defined.

(** X9.  [sendWebhook] resolves exactly when the endpoint answered the POST
    with a status below 500, whatever the channel type: a 2xx, 3xx or 4xx
    answer counts as delivered, a 5xx answer or a request that got no
    answer does not. *)
Theorem sendWebhook_resolves_iff (o : Oracle) (k i : nat)
    (url title message type : string) (priority : Priority) :
  sendWebhook o k i url title message type priority = Ok tt <->
  exists resp,
    post o k i url (webhookBody o k i title message type priority) = Responded resp /\
    (resp_status resp < 500)%Z.
Proof.
  unfold sendWebhook, settle.
  destruct (post o k i url (webhookBody o k i title message type priority))
    as [resp | e].
  - destruct (resp_status resp <? 500)%Z eqn:E.
    + split; [|reflexivity]. intros _. exists resp. split; [reflexivity|].
      now apply Z.ltb_lt.
    + split; [discriminate|]. intros (resp' & Heq & Hlt).
      inversion Heq; subst. apply Z.ltb_lt in Hlt. congruence.
  - split; [discriminate|]. intros (resp' & Heq & _). discriminate.
Qed.

Ltac email_finish :=
  eexists; (split; [reflexivity|]); cbn; repeat split;
  try congruence; try discriminate;
  try solve
    [ intros (H & _); discriminate
    | intros (_ & from' & H & Hne' & Hs); inversion H; subst; congruence
    | intros _ [H | H]; [discriminate | inversion H; subst; congruence]
    | eexists; eauto ].

(** X10.  An email channel is delivered exactly when a transporter exists,
    [SMTP_FROM] is set to a non-empty address and [sendMail] accepts the
    message (from that address, to the channel's value, subject = priority
    emoji, a space and the title, text = the message).  Without a
    transporter, or without [SMTP_FROM], the entry is a failure with the
    corresponding error text and [sendMail] is not consulted. *)
Theorem email_channel_outcome (o : Oracle) (k : nat) (title message : string)
    (priority : Priority) (i : nat) (channel : ChannelRow) :
  ch_type channel = "email" ->
  exists v,
    deliver o k title message priority i channel = Ok v /\
    channelId v = ch_id channel /\ type v = "email" /\
    (success v = true <->
     transporter o = true /\
     exists from,
       SMTP_FROM o = Some from /\ from <> "" /\
       sendMail o k i {| mail_from := from; mail_to := ch_value channel;
                         mail_subject := priorityEmoji priority ++ " " ++ title;
                         mail_text := message |} = None) /\
    (transporter o = false -> error v = Some "Email transporter not available") /\
    (transporter o = true -> SMTP_FROM o = None \/ SMTP_FROM o = Some "" ->
     error v = Some "SMTP_FROM environment variable not set").
Proof.
  intros Hty. unfold deliver, sendEmail. rewrite Hty.
  change ("email" =? "email") with true. cbv iota.
  destruct (transporter o); cbn.
  2: { email_finish. }
  destruct (SMTP_FROM o) as [from|]; cbn.
  2: { email_finish. }
  unfold Js.truthyString. destruct (String.eqb_spec from "") as [-> | Hne]; cbn.
  { email_finish. }
  destruct (sendMail o k i _) as [e|] eqn:Hsend; email_finish.
Qed.

Definition emailChannel : ChannelRow :=
  {| ch_id := 1; ch_userId := "u1"; ch_type := "email"; ch_value := "ops@example.com" |}.

Lemma email_channel_outcome_witness :
  exists v,
    deliver Examples.alwaysUp 1 "Monitor Alert" "api is down" critical 0 emailChannel
      = Ok v /\
    channelId v = ch_id emailChannel /\ type v = "email" /\
    (success v = true <->
     transporter Examples.alwaysUp = true /\
     exists from,
       SMTP_FROM Examples.alwaysUp = Some from /\ from <> "" /\
       sendMail Examples.alwaysUp 1 0
                {| mail_from := from; mail_to := ch_value emailChannel;
                   mail_subject := priorityEmoji critical ++ " " ++ "Monitor Alert";
                   mail_text := "api is down" |} = None) /\
    (transporter Examples.alwaysUp = false ->
     error v = Some "Email transporter not available") /\
    (transporter Examples.alwaysUp = true ->
     SMTP_FROM Examples.alwaysUp = None \/ SMTP_FROM Examples.alwaysUp = Some "" ->
     error v = Some "SMTP_FROM environment variable not set").
Proof.
  apply (email_channel_outcome Examples.alwaysUp 1 "Monitor Alert" "api is down"
           critical 0 emailChannel).
  reflexivity.
Defined.

(** Mail is not configured: no [SMTP_FROM]. *)
Definition noSmtpFrom : Oracle :=
  {| now := now Examples.alwaysUp; toLocaleString := toLocaleString Examples.alwaysUp;
     toISOString := toISOString Examples.alwaysUp; dbFails := dbFails Examples.alwaysUp;
     scanOrder := scanOrder Examples.alwaysUp;
     scanOrder_perm := scanOrder_perm Examples.alwaysUp;
     probe := probe Examples.alwaysUp; deliveryClock := deliveryClock Examples.alwaysUp;
     post := post Examples.alwaysUp; sendMail := sendMail Examples.alwaysUp;
     transporter := true; SMTP_FROM := None |}.

Example email_without_smtp_from :
  fst (notifyUser noSmtpFrom DispatchExamples.alert Examples.world0)
  = Ok [ {| channelId := 1; type := "email"; success := false;
            error := Some "SMTP_FROM environment variable not set" |};
         {| channelId := 2; type := "slack"; success := true; error := None |};
         {| channelId := 3; type := "webhook"; success := true; error := None |} ].
Proof. vm_compute. reflexivity. Qed.

(** X11.  A channel whose type is none of email, slack, discord and webhook
    is not delivered to: its entry is a failure whose error names the type,
    whatever the transports would have answered. *)
Theorem unsupported_channel_type (o : Oracle) (k : nat) (title message : string)
    (priority : Priority) (i : nat) (channel : ChannelRow) :
  ch_type channel <> "email" -> ch_type channel <> "slack" ->
  ch_type channel <> "discord" -> ch_type channel <> "webhook" ->
  deliver o k title message priority i channel
  = Ok {| channelId := ch_id channel; type := ch_type channel; success := false;
          error := Some ("Unsupported channel type: " ++ ch_type channel) |}.
Proof.
  intros He Hs Hd Hw. unfold deliver.
  apply String.eqb_neq in He, Hs, Hd, Hw. rewrite He, Hs, Hd, Hw. reflexivity.
Qed.

Lemma unsupported_channel_type_witness :
  deliver Examples.alwaysUp 1 "Monitor Alert" "api is down" critical 0
          {| ch_id := 9; ch_userId := "u1"; ch_type := "sms"; ch_value := "+15550100" |}
  = Ok {| channelId := 9; type := "sms"; success := false;
          error := Some ("Unsupported channel type: " ++ "sms") |}.
Proof.
  apply (unsupported_channel_type Examples.alwaysUp 1 "Monitor Alert" "api is down"
           critical 0
           {| ch_id := 9; ch_userId := "u1"; ch_type := "sms"; ch_value := "+15550100" |});
    discriminate.
Defined.

(** X12.  The posted body by channel type.  Slack: the text is the title
    between asterisks, a newline and the message; the colour is "danger"
    exactly for priority critical and "warning" exactly for high; [ts] is
    the delivery's clock in whole seconds.  Any type other than slack and
    discord (the [default] case included) gets the generic alert body with
    the title, message and priority unchanged and type "monitor_alert". *)
Theorem webhookBody_shapes (o : Oracle) (k i : nat) (title message type : string)
    (priority : Priority) :
  (type = "slack" ->
   exists color ts,
     webhookBody o k i title message type priority
       = SlackBody ("*" ++ title ++ "*" ++ Js.nl ++ message) color title message
                   false "Monitor Alert" ts /\
     (color = "danger" <-> priority = critical) /\
     (color = "warning" <-> priority = high) /\
     (1000 * ts <= deliveryClock o k i < 1000 * ts + 1000)%Z) /\
  (type <> "slack" -> type <> "discord" ->
   webhookBody o k i title message type priority
     = AlertBody title message priority
                 (toISOString o (deliveryClock o k i)) "monitor_alert").
Proof.
  split.
  - intros ->. unfold webhookBody. change ("slack" =? "slack") with true. cbv iota.
    eexists. eexists. split; [reflexivity|].
    split; [|split].
    + destruct priority; split; congruence.
    + destruct priority; split; congruence.
    + pose proof (Z.div_mod (deliveryClock o k i) 1000 ltac:(lia)) as Hdm.
      pose proof (Z.mod_pos_bound (deliveryClock o k i) 1000 ltac:(lia)) as Hb.
      lia.
  - intros Hs Hd. unfold webhookBody.
    apply String.eqb_neq in Hs, Hd. now rewrite Hs, Hd.
Qed.

(** ** The other entry points of [src/notification.ts] *)

Module Legacy.

(** [export async function notifyUser(userId, message)] *)
Definition notifyUser (o : Oracle) (userId message : string)
    : M (list NotificationResult) :=
  notifyUser o {| np_userId := userId; np_title := "Monitor Alert";
                  np_message := message; np_priority := Some medium;
                  np_metadata := None |}.

End Legacy.

Module NotificationHelpers.

Definition sendCriticalAlert (o : Oracle) (userId title message : string)
    (metadata : option Metadata) : M (list NotificationResult) :=
  notifyUser o {| np_userId := userId; np_title := title; np_message := message;
                  np_priority := Some critical; np_metadata := metadata |}.

Definition sendWarning (o : Oracle) (userId title message : string)
    (metadata : option Metadata) : M (list NotificationResult) :=
  notifyUser o {| np_userId := userId; np_title := title; np_message := message;
                  np_priority := Some high; np_metadata := metadata |}.

Definition sendInfo (o : Oracle) (userId title message : string)
    (metadata : option Metadata) : M (list NotificationResult) :=
  notifyUser o {| np_userId := userId; np_title := title; np_message := message;
                  np_priority := Some low; np_metadata := metadata |}.

End NotificationHelpers.

(** X13.  The legacy entry point supplies the title itself, so it is
    rejected as missing a parameter exactly when the user id or the message
    is empty; otherwise, with the channel query answered, it returns one
    entry per channel of the user. *)
Theorem legacy_notifyUser_outcome (o : Oracle) (userId message : string) (w : World) :
  (userId = "" \/ message = "" ->
   fst (Legacy.notifyUser o userId message w)
     = Throw (Error "Missing required notification parameters")) /\
  (userId <> "" -> message <> "" -> dbFails o (tick w) = None ->
   exists results,
     fst (Legacy.notifyUser o userId message w) = Ok results /\
     map channelId results = map ch_id (channelsOf userId w)).
Proof.
  unfold Legacy.notifyUser. split.
  - intros H. rewrite notifyUser_missing_parameters; [reflexivity|].
    cbn. tauto.
  - intros Hu Hm Hdb.
    rewrite notifyUser_run by (repeat split; cbn; [assumption | discriminate | assumption]).
    cbv zeta. rewrite Hdb. cbn [np_userId np_title np_message].
    destruct (channelsOf userId w) as [|c cs] eqn:E.
    + exists []. split; reflexivity.
    + eexists. split; [reflexivity|].
      apply mapIndexed_map. intros j x. apply entryOf_channel.
Qed.

(** X14.  The three helpers address the same channels as each other, in the
    same order, and differ in the priority they hand on: critical, high and
    low.  Each records exactly one call of the dispatcher. *)
Theorem notification_helpers (o : Oracle) (userId title message : string)
    (metadata : option Metadata) (w : World) (r1 r2 r3 : list NotificationResult) :
  fst (NotificationHelpers.sendCriticalAlert o userId title message metadata w) = Ok r1 ->
  fst (NotificationHelpers.sendWarning o userId title message metadata w) = Ok r2 ->
  fst (NotificationHelpers.sendInfo o userId title message metadata w) = Ok r3 ->
  map channelId r1 = map ch_id (channelsOf userId w) /\
  map channelId r2 = map channelId r1 /\ map channelId r3 = map channelId r1 /\
  map type r2 = map type r1 /\ map type r3 = map type r1 /\
  map np_priority
      (skipn (List.length (notifyCalls w))
         (notifyCalls
            (snd (NotificationHelpers.sendCriticalAlert o userId title message metadata w))))
    = [Some critical] /\
  map np_priority
      (skipn (List.length (notifyCalls w))
         (notifyCalls
            (snd (NotificationHelpers.sendWarning o userId title message metadata w))))
    = [Some high] /\
  map np_priority
      (skipn (List.length (notifyCalls w))
         (notifyCalls
            (snd (NotificationHelpers.sendInfo o userId title message metadata w))))
    = [Some low].
Proof.
  unfold NotificationHelpers.sendCriticalAlert, NotificationHelpers.sendWarning,
    NotificationHelpers.sendInfo.
  intros H1 H2 H3.
  destruct (notifyUser_entries_shape o _ w r1 H1) as (I1 & T1).
  destruct (notifyUser_entries_shape o _ w r2 H2) as (I2 & T2).
  destruct (notifyUser_entries_shape o _ w r3 H3) as (I3 & T3).
  cbn [np_userId] in *.
  repeat match goal with
         | |- context [notifyUser o ?p w] =>
             let F := fresh "F" in
             destruct (notifyUser_frame o p w) as (_ & _ & _ & _ & F);
             rewrite F; clear F
         end.
  rewrite !skipn_app, !skipn_all, !Nat.sub_diag. cbn.
  repeat split; congruence.
Qed.

Definition allDelivered : list NotificationResult :=
  [ {| channelId := 1; type := "email"; success := true; error := None |};
    {| channelId := 2; type := "slack"; success := true; error := None |};
    {| channelId := 3; type := "webhook"; success := true; error := None |} ].

Lemma notification_helpers_witness :
  map channelId allDelivered = map ch_id (channelsOf "u1" Examples.world0) /\
  map channelId allDelivered = map channelId allDelivered /\
  map channelId allDelivered = map channelId allDelivered /\
  map type allDelivered = map type allDelivered /\
  map type allDelivered = map type allDelivered /\
  map np_priority
      (skipn (List.length (notifyCalls Examples.world0))
         (notifyCalls
            (snd (NotificationHelpers.sendCriticalAlert Examples.alwaysUp "u1"
                    "Disk full" "90% used" None Examples.world0))))
    = [Some critical] /\
  map np_priority
      (skipn (List.length (notifyCalls Examples.world0))
         (notifyCalls
            (snd (NotificationHelpers.sendWarning Examples.alwaysUp "u1"
                    "Disk full" "90% used" None Examples.world0))))
    = [Some high] /\
  map np_priority
      (skipn (List.length (notifyCalls Examples.world0))
         (notifyCalls
            (snd (NotificationHelpers.sendInfo Examples.alwaysUp "u1"
                    "Disk full" "90% used" None Examples.world0))))
    = [Some low].
Proof.
  apply (notification_helpers Examples.alwaysUp "u1" "Disk full" "90% used" None
           Examples.world0 allDelivered allDelivered allDelivered);
    vm_compute; reflexivity.
Defined.

(** ** More on the job processor *)

(** The store rejected a call of the job started in [w] with [e]: it could
    not be reached for one of the calls up to the insert of the check result
    (the effect number 6 of the job), or a statement of the job violated the
    schema. *)
Definition storeRejected (o : Oracle) (w : World) (e : JsError) : Prop :=
  (exists k, (tick w <= k <= 6 + tick w)%nat /\ dbFails o k = Some e) \/
  (exists z, Pg.fitsInteger z = false /\ e = Pg.integerOutOfRange z) \/
  e = Pg.notNullViolation "user_id" "check_result".

(** A job fails only with the error of a store call that rejected: the
    probe never fails it. *)
Lemma worker_throw_origin (o : Oracle) (monitorId : uuid) (w : World) (e : JsError) :
  fst (worker o monitorId w) = Throw e -> storeRejected o w e.
Proof.
  unfold storeRejected, worker. rewrite try_catch_rethrow.
  unfold selectMonitor, updateMonitorStatus, insertCheckResult, dbCall, dbExec, dateNow,
    bind, effect, ret, throw.
  cbn.
  destruct (dbFails o (tick w)) as [e0|] eqn:E0; cbn.
  { intros He. injection He as <-. left. exists (tick w). split; [lia | exact E0]. }
  destruct (filter (fun m => (mon_id m =? monitorId)%nat) (monitors w)) as [|m ms];
    [discriminate|].
  match goal with
  | |- context [performHealthCheck o ?mc ?w1] =>
      destruct (performHealthCheck_returns o mc w1) as [r Hr]; rewrite Hr; cbn
  end.
  destruct (dbFails o (S (S (S (S (tick w)))))) as [e4|] eqn:E4; cbn.
  { intros He. injection He as <-. left. exists (4 + tick w). split; [lia | exact E4]. }
  destruct (dbFails o (S (S (S (S (S (S (tick w)))))))) as [e6|] eqn:E6; cbn.
  { intros He. injection He as <-. left. exists (6 + tick w). split; [lia | exact E6]. }
  destruct (Pg.fitsInteger (responseMs r)) eqn:Efits; cbn; intros He; injection He as <-.
  - right. right. reflexivity.
  - right. left. exists (responseMs r). split; [exact Efits | reflexivity].
Qed.

(** What a job may do to the tables other than [incident] and to the trace
    of dispatcher calls. *)
Definition monitorsStep (monitorId : uuid) (l l' : list MonitorRow) : Prop :=
  l' = l \/
  exists s, l' = map (fun m => if (mon_id m =? monitorId)%nat
                               then setMonitorStatus s m else m) l.

Definition checkResultsStep (monitorId : uuid) (l l' : list CheckResultRow) : Prop :=
  l' = l \/
  exists row, l' = (l ++ [row])%list /\ cr_monitorId row = monitorId /\
              cr_id row = freshId (map cr_id l).

Definition callsStep (l l' : list NotificationPayload) : Prop :=
  l' = l \/ exists p, l' = (l ++ [p])%list.

Lemma worker_frame (o : Oracle) (monitorId : uuid) (w : World) :
  channels (snd (worker o monitorId w)) = channels w /\
  monitorsStep monitorId (monitors w) (monitors (snd (worker o monitorId w))) /\
  checkResultsStep monitorId (checkResults w) (checkResults (snd (worker o monitorId w))) /\
  callsStep (notifyCalls w) (notifyCalls (snd (worker o monitorId w))).
Proof.
  unfold monitorsStep, checkResultsStep, callsStep.
  worker_paths o monitorId w
    ltac:(repeat split;
          first [ reflexivity
                | left; reflexivity
                | right; eexists; reflexivity
                | right; eexists; repeat split; reflexivity ]).
Qed.

(** The job as it runs on the tables of [schema.ts]: whatever the oracle,
    it ends at the insert of the check result at the latest, so that the
    only table it ever writes is [monitor]. *)
Lemma worker_stops_at_check_result (o : Oracle) (monitorId : uuid) (w : World) :
  checkResults (snd (worker o monitorId w)) = checkResults w /\
  incidents (snd (worker o monitorId w)) = incidents w /\
  channels (snd (worker o monitorId w)) = channels w /\
  notifyCalls (snd (worker o monitorId w)) = notifyCalls w.
Proof.
  unfold_worker.
  db_split; [repeat split|].
  destruct (filter (fun m => (mon_id m =? monitorId)%nat) (monitors w)) as [|m ms];
    [repeat split|].
  match goal with
  | |- context [performHealthCheck o ?mc ?w1] =>
      destruct (performHealthCheck_returns o mc w1) as [r Hr]; rewrite Hr; cbn
  end.
  db_split; [repeat split|].
  db_split; [repeat split|].
  destruct (Pg.fitsInteger (responseMs r)); repeat split.
Qed.

(** X15.  On the tables of [schema.ts] no job that finds its monitor
    completes: the probe is made and the status of the monitor's rows is
    overwritten with up or down, then the insert of the check result, which
    names no [user_id], is rejected and the job fails with that error (or
    with the error of an earlier rejection).  No check result is recorded,
    the incident table is not touched and the dispatcher is not invoked. *)
Theorem worker_fails_once_monitor_found (o : Oracle) (monitorId : uuid) (w : World)
    (m : MonitorRow) (ms : list MonitorRow) (r : CheckResults) :
  dbFails o (tick w) = None ->
  monitorRows monitorId w = m :: ms ->
  probeResult o m w = Ok r ->
  (exists e, fst (worker o monitorId w) = Throw e) /\
  checkResults (snd (worker o monitorId w)) = checkResults w /\
  incidents (snd (worker o monitorId w)) = incidents w /\
  notifyCalls (snd (worker o monitorId w)) = notifyCalls w /\
  (dbFails o (4 + tick w) = None ->
   monitors (snd (worker o monitorId w)) =
     map (fun x => if (mon_id x =? monitorId)%nat
                   then setMonitorStatus (if isUp r then Up else Down) x else x)
         (monitors w)) /\
  (dbFails o (4 + tick w) = None ->
   dbFails o (6 + tick w) = None ->
   Pg.fitsInteger (responseMs r) = true ->
   fst (worker o monitorId w) = Throw (Pg.notNullViolation "user_id" "check_result") /\
   tick (snd (worker o monitorId w)) = 7 + tick w).
Proof.
  intros Hdb Hm Hr.
  destruct (worker_stops_at_check_result o monitorId w) as (Hc & Hi & _ & Hn).
  split; [|split; [exact Hc|split; [exact Hi|split; [exact Hn|]]]]; clear Hc Hi Hn.
  - unfold_worker. rewrite Hdb. cbn. fold (monitorRows monitorId w). rewrite Hm.
    match goal with
    | |- context [performHealthCheck o ?mc ?w1] =>
        destruct (performHealthCheck_returns o mc w1) as [r' Hr']; rewrite Hr'; cbn
    end.
    db_split; [eexists; reflexivity|].
    db_split; [eexists; reflexivity|].
    destruct (Pg.fitsInteger (responseMs r')); eexists; reflexivity.
  - unfold_worker. rewrite Hdb. cbn. fold (monitorRows monitorId w). rewrite Hm.
    match goal with
    | |- context [performHealthCheck o ?mc ?w1] =>
        destruct (performHealthCheck_returns o mc w1) as [r' Hr'];
        unfold probeResult in Hr; rewrite Hr' in Hr; cbn in Hr;
        injection Hr as ->; rewrite Hr'; cbn
    end.
    split.
    + intros H4. rewrite H4. cbn. unfold statusOf.
      db_split; [reflexivity|].
      destruct (Pg.fitsInteger (responseMs r)); reflexivity.
    + intros H4 H6 Hfits. rewrite H4. cbn. rewrite H6. cbn. rewrite Hfits.
      split; reflexivity.
Qed.

Definition resultUp200 : CheckResults :=
  {| isUp := true; responseMs := 2000; statusCode := Some 200%Z;
     errorMessage := None; errorType := Unknown |}.

Lemma worker_fails_once_monitor_found_witness :
  (exists e, fst (worker Examples.alwaysUp 1 Examples.world0) = Throw e) /\
  checkResults (snd (worker Examples.alwaysUp 1 Examples.world0))
    = checkResults Examples.world0 /\
  incidents (snd (worker Examples.alwaysUp 1 Examples.world0))
    = incidents Examples.world0 /\
  notifyCalls (snd (worker Examples.alwaysUp 1 Examples.world0))
    = notifyCalls Examples.world0 /\
  (dbFails Examples.alwaysUp (4 + tick Examples.world0) = None ->
   monitors (snd (worker Examples.alwaysUp 1 Examples.world0)) =
     map (fun x => if (mon_id x =? 1)%nat
                   then setMonitorStatus (if isUp resultUp200 then Up else Down) x else x)
         (monitors Examples.world0)) /\
  (dbFails Examples.alwaysUp (4 + tick Examples.world0) = None ->
   dbFails Examples.alwaysUp (6 + tick Examples.world0) = None ->
   Pg.fitsInteger (responseMs resultUp200) = true ->
   fst (worker Examples.alwaysUp 1 Examples.world0)
     = Throw (Pg.notNullViolation "user_id" "check_result") /\
   tick (snd (worker Examples.alwaysUp 1 Examples.world0)) = 7 + tick Examples.world0).
Proof.
  apply (worker_fails_once_monitor_found Examples.alwaysUp 1 Examples.world0
           Examples.monitor1 [] resultUp200); reflexivity.
Defined.

(** X16.  Persistence failures are re-raised: if the monitor query rejects,
    the job fails with that error before anything is written; and whenever
    a job fails, the error is the one some store call of that job rejected
    with. *)
Theorem worker_rethrows_store_errors (o : Oracle) (monitorId : uuid) (w : World) :
  (forall e, dbFails o (tick w) = Some e ->
             worker o monitorId w = (Throw e, set_tick (S (tick w)) w)) /\
  (forall e, fst (worker o monitorId w) = Throw e -> storeRejected o w e).
Proof.
  split.
  - intros e He. unfold_worker. rewrite He. reflexivity.
  - intros e. apply worker_throw_origin.
Qed.

(** The error of a job need not be one the connection gave: with the store
    reachable throughout, the job fails with the violation of the schema. *)
Example worker_fails_with_store_reachable :
  (forall k, dbFails Examples.alwaysUp k = None) /\
  fst (worker Examples.alwaysUp 1 Examples.world0)
    = Throw (Pg.notNullViolation "user_id" "check_result").
Proof. split; [intros k; reflexivity | vm_compute; reflexivity]. Qed.

(** The store goes away after the monitor status was written: the insert of
    the check result (effect 6 of the job) rejects. *)
Definition storeLost : Oracle :=
  {| now := now Examples.alwaysDown; toLocaleString := toLocaleString Examples.alwaysDown;
     toISOString := toISOString Examples.alwaysDown;
     dbFails := fun k => if (6 <=? k)%nat then Some (Error "Connection terminated") else None;
     scanOrder := scanOrder Examples.alwaysDown;
     scanOrder_perm := scanOrder_perm Examples.alwaysDown;
     probe := probe Examples.alwaysDown; deliveryClock := deliveryClock Examples.alwaysDown;
     post := post Examples.alwaysDown; sendMail := sendMail Examples.alwaysDown;
     transporter := true; SMTP_FROM := SMTP_FROM Examples.alwaysDown |}.

Example worker_fails_when_store_is_lost :
  fst (worker storeLost 1 Examples.world0) = Throw (Error "Connection terminated") /\
  map mon_status (monitors (snd (worker storeLost 1 Examples.world0))) = [Down] /\
  checkResults (snd (worker storeLost 1 Examples.world0)) = [] /\
  incidents (snd (worker storeLost 1 Examples.world0)) = [] /\
  notifyCalls (snd (worker storeLost 1 Examples.world0)) = [].
Proof. vm_compute. repeat split; reflexivity. Qed.

Lemma Forall2_map_r_same {A} (P : A -> A -> Prop) (f : A -> A) (l : list A) :
  (forall x, P x (f x)) -> Forall2 P l (map f l).
Proof. intros H. induction l; cbn; constructor; auto. Qed.

(** X17.  What a job never does, on any path (failed or completed): it never
    changes the channel table; it never changes or removes a check result
    and adds at most one, for its own monitor; it invokes the dispatcher at
    most once; and in the monitor table it keeps every row, changes nothing
    of the rows of other monitors and nothing but the status of its own. *)
Theorem worker_frame_conditions (o : Oracle) (monitorId : uuid) (w : World) :
  channels (snd (worker o monitorId w)) = channels w /\
  (exists rows,
      checkResults (snd (worker o monitorId w)) = (checkResults w ++ rows)%list /\
      (List.length rows <= 1)%nat /\
      Forall (fun row => cr_monitorId row = monitorId) rows) /\
  (exists calls,
      notifyCalls (snd (worker o monitorId w)) = (notifyCalls w ++ calls)%list /\
      (List.length calls <= 1)%nat) /\
  Forall2 (fun m m' =>
             (mon_id m <> monitorId -> m' = m) /\
             (forall b, monitorCheckOf m' b = monitorCheckOf m b))
          (monitors w) (monitors (snd (worker o monitorId w))).
Proof.
  destruct (worker_frame o monitorId w) as (Hch & Hmon & Hcr & Hcalls).
  split; [exact Hch|]. split; [|split].
  - destruct Hcr as [-> | (row & -> & Hrow & _)].
    + exists []. rewrite app_nil_r. repeat split; [cbn; lia | constructor].
    + exists [row]. repeat split; [cbn; lia | constructor; [exact Hrow | constructor]].
  - destruct Hcalls as [-> | (p & ->)].
    + exists []. rewrite app_nil_r. split; [reflexivity | cbn; lia].
    + exists [p]. split; [reflexivity | cbn; lia].
  - destruct Hmon as [-> | (s & ->)].
    + rewrite <- (map_id (monitors w)) at 2. apply Forall2_map_r_same.
      intros x. split; reflexivity.
    + apply Forall2_map_r_same. intros x.
      destruct (Nat.eqb_spec (mon_id x) monitorId); split;
        try reflexivity; try contradiction; intros; reflexivity.
Qed.

(** *** Primary keys of the incident table *)

Lemma freshId_not_in (ids : list uuid) : ~ In (freshId ids) ids.
Proof.
  unfold freshId. intros H.
  assert (Hle : Forall (fun k => (k <= list_max ids)%nat) ids)
    by (apply list_max_le; lia).
  rewrite Forall_forall in Hle. specialize (Hle _ H). lia.
Qed.

Definition incidentIdsStep (l l' : list IncidentRow) : Prop :=
  map inc_id l' = map inc_id l \/
  map inc_id l' = (map inc_id l ++ [freshId (map inc_id l)])%list.

Lemma worker_incident_ids (o : Oracle) (monitorId : uuid) (w : World) :
  incidentIdsStep (incidents w) (incidents (snd (worker o monitorId w))).
Proof.
  unfold incidentIdsStep.
  worker_paths o monitorId w
    ltac:(first [ left; reflexivity
                | left; rewrite map_map; apply map_ext; intros ?x;
                  destruct (inc_id x =? _)%nat; reflexivity
                | right; rewrite map_app; reflexivity ]).
Qed.

Lemma incidentIdsStep_NoDup (l l' : list IncidentRow) :
  incidentIdsStep l l' -> NoDup (map inc_id l) -> NoDup (map inc_id l').
Proof.
  intros [-> | ->] H; [exact H|].
  apply NoDup_app; [exact H | repeat constructor; intros [] | ].
  intros x Hx [<- | []]. exact (freshId_not_in _ Hx).
Qed.

(** X18.  Incident rows are never deleted or re-keyed, and their ids stay
    unique: a job leaves the ids of the table as they were, in the same
    order, followed by at most one id that was not in use; so from a table
    with unique ids every reachable table has unique ids. *)
Theorem incident_ids_stay_unique (w0 w : World) :
  NoDup (map inc_id (incidents w0)) ->
  reachable w0 w ->
  NoDup (map inc_id (incidents w)) /\
  exists new, map inc_id (incidents w) = (map inc_id (incidents w0) ++ new)%list.
Proof.
  intros H0 Hreach. induction Hreach as [ | w o mid Hreach (IHn & new & IHe) ].
  - split; [exact H0|]. exists []. now rewrite app_nil_r.
  - pose proof (worker_incident_ids o mid w) as Hstep.
    split; [exact (incidentIdsStep_NoDup _ _ Hstep IHn)|].
    destruct Hstep as [-> | ->].
    + exists new. exact IHe.
    + exists (new ++ [freshId (map inc_id (incidents w))])%list.
      now rewrite IHe, app_assoc.
Qed.

Lemma incident_ids_stay_unique_witness :
  NoDup (map inc_id
           (incidents (snd (worker Examples.alwaysUp 1
                              (snd (worker Examples.alwaysDown 1
                                      OpenIncidentExample.world)))))) /\
  exists new,
    map inc_id
      (incidents (snd (worker Examples.alwaysUp 1
                         (snd (worker Examples.alwaysDown 1
                                 OpenIncidentExample.world)))))
    = (map inc_id (incidents OpenIncidentExample.world) ++ new)%list.
Proof.
  apply (incident_ids_stay_unique OpenIncidentExample.world).
  - cbn. constructor; [intros [] | constructor].
  - apply reach_job. apply reach_job. apply reach_start.
Defined.

(** *** What the jobs never reach *)

(** X23.  No job ever invokes the dispatcher or writes an incident or a
    check result: in every world reachable by a sequence of jobs the
    incident table, the check results, the channels and the trace of
    dispatcher calls are those of the initial world.  In particular no
    notification is sent for a monitor that is still down, and none is
    sent twice. *)
Theorem no_job_reaches_dispatcher (w0 w : World) :
  reachable w0 w ->
  notifyCalls w = notifyCalls w0 /\
  incidents w = incidents w0 /\
  checkResults w = checkResults w0 /\
  channels w = channels w0.
Proof.
  intros Hreach. induction Hreach as [ | w o mid Hreach (IHn & IHi & IHc & IHh) ].
  - repeat split.
  - destruct (worker_stops_at_check_result o mid w) as (Hc & Hi & Hh & Hn).
    rewrite Hc, Hi, Hh, Hn. auto.
Qed.

Lemma no_job_reaches_dispatcher_witness :
  notifyCalls (snd (worker Examples.alwaysUp 1
                      (snd (worker Examples.alwaysDown 1 OpenIncidentExample.world))))
    = notifyCalls OpenIncidentExample.world /\
  incidents (snd (worker Examples.alwaysUp 1
                    (snd (worker Examples.alwaysDown 1 OpenIncidentExample.world))))
    = incidents OpenIncidentExample.world /\
  checkResults (snd (worker Examples.alwaysUp 1
                       (snd (worker Examples.alwaysDown 1 OpenIncidentExample.world))))
    = checkResults OpenIncidentExample.world /\
  channels (snd (worker Examples.alwaysUp 1
                   (snd (worker Examples.alwaysDown 1 OpenIncidentExample.world))))
    = channels OpenIncidentExample.world.
Proof.
  apply (no_job_reaches_dispatcher OpenIncidentExample.world).
  apply reach_job. apply reach_job. apply reach_start.
Defined.
